(** * tf_yarn.mlflow: a defensive adapter around the mlflow client

    Shallow embedding of [src/tf_yarn/mlflow.py].  Python functions that
    touch the module globals, the environment, the mlflow client, the
    filesystem or the logger are computations in a state-and-exception
    monad; [format_key], which touches none of them, is a plain function. *)

From Stdlib Require Import String Ascii List Bool ZArith DecimalString.
Import ListNotations.
Local Open Scope string_scope.

(** ** Python values *)

(** The arguments the module receives are dynamically typed.  [VOther]
    stands for an object of a class without a [replace] attribute (a float,
    a dict, a list, ...), known by its [str()] and its truth value. *)
Inductive value : Type :=
| VNone
| VBool (b : bool)
| VInt (z : Z)
| VStr (s : string)
| VOther (repr : string) (truthy : bool).

(** Python's truth test, as used by [if key:]. *)
Definition truth (v : value) : bool :=
  match v with
  | VNone => false
  | VBool b => b
  | VInt z => negb (Z.eqb z 0)
  | VStr s => negb (String.eqb s "")
  | VOther _ t => t
  end.

(** [str(v)], as used by an f-string. *)
Definition str (v : value) : string :=
  match v with
  | VNone => "None"
  | VBool true => "True"
  | VBool false => "False"
  | VInt z => NilZero.string_of_int (Z.to_int z)
  | VStr s => s
  | VOther r _ => r
  end.

(** ** Exceptions *)

Inductive exn_class : Type :=
| BaseException
| KeyboardInterrupt
| Exception
| OSError
| ConnectionError
| ConnectionRefusedError
| ConnectionResetError
| BrokenPipeError
| FileNotFoundError
| FileExistsError
| PermissionError
| IsADirectoryError
| ImportError
| ModuleNotFoundError
| NameError
| AttributeError
| TypeError
| ValueError
| MlflowException
| RestException.

(** The direct base class. *)
Definition base (c : exn_class) : option exn_class :=
  match c with
  | BaseException => None
  | KeyboardInterrupt => Some BaseException
  | Exception => Some BaseException
  | OSError => Some Exception
  | ConnectionError => Some OSError
  | ConnectionRefusedError => Some ConnectionError
  | ConnectionResetError => Some ConnectionError
  | BrokenPipeError => Some ConnectionError
  | FileNotFoundError => Some OSError
  | FileExistsError => Some OSError
  | PermissionError => Some OSError
  | IsADirectoryError => Some OSError
  | ImportError => Some Exception
  | ModuleNotFoundError => Some ImportError
  | NameError => Some Exception
  | AttributeError => Some Exception
  | TypeError => Some Exception
  | ValueError => Some Exception
  | MlflowException => Some Exception
  | RestException => Some MlflowException
  end.

Definition exn_eqb (c d : exn_class) : bool :=
  match c, d with
  | BaseException, BaseException
  | KeyboardInterrupt, KeyboardInterrupt
  | Exception, Exception
  | OSError, OSError
  | ConnectionError, ConnectionError
  | ConnectionRefusedError, ConnectionRefusedError
  | ConnectionResetError, ConnectionResetError
  | BrokenPipeError, BrokenPipeError
  | FileNotFoundError, FileNotFoundError
  | FileExistsError, FileExistsError
  | PermissionError, PermissionError
  | IsADirectoryError, IsADirectoryError
  | ImportError, ImportError
  | ModuleNotFoundError, ModuleNotFoundError
  | NameError, NameError
  | AttributeError, AttributeError
  | TypeError, TypeError
  | ValueError, ValueError
  | MlflowException, MlflowException
  | RestException, RestException => true
  | _, _ => false
  end.

(** [issubclass c d], climbing the bases of [c]; the hierarchy above is
    five classes deep. *)
Fixpoint climbs (fuel : nat) (c d : exn_class) : bool :=
  exn_eqb c d ||
  match fuel with
  | O => false
  | S k => match base c with
           | Some b => climbs k b d
           | None => false
           end
  end.

Definition issubclass (c d : exn_class) : bool := climbs 5 c d.

(** An [except (d1, d2, ...)] clause matches [c]. *)
Definition matches (c : exn_class) (ds : list exn_class) : bool :=
  existsb (issubclass c) ds.

(** The tuple both decorators name:
    [(ConnectionError, exceptions.MlflowException)]. *)
Definition caught : list exn_class := [ConnectionError; MlflowException].

(** ** Strings *)

(** [s.replace(old, new)] for a non-empty [old]: a left-to-right scan that
    replaces each occurrence of [old] and resumes after it; [skip] counts
    the characters of a matched occurrence still to be passed over. *)
Fixpoint replace_from (old new s : string) (skip : nat) : string :=
  match s with
  | EmptyString => EmptyString
  | String c s' =>
      match skip with
      | S k => replace_from old new s' k
      | O =>
          if String.prefix old s
          then new ++ replace_from old new s' (String.length old - 1)
          else String c (replace_from old new s' 0)
      end
  end.

(** With an empty [old], Python puts [new] before every character and at
    the end. *)
Fixpoint replace_empty (new s : string) : string :=
  match s with
  | EmptyString => new
  | String c s' => new ++ String c (replace_empty new s')
  end.

Definition replace (s old new : string) : string :=
  match old with
  | EmptyString => replace_empty new s
  | _ => replace_from old new s 0
  end.

(** ** Results *)

Inductive result (A : Type) : Type :=
| Ret (a : A)
| Raise (e : exn_class).
Arguments Ret {A} a.
Arguments Raise {A} e.

(** ** Key sanitizer *)

(** [format_key]: the receiver of [.replace] must be a [str]; the other
    truthy values of this model have no such attribute. *)
Definition format_key (key : value) : result value :=
  if truth key then
    match key with
    | VStr s => Ret (VStr (replace (replace s ":" "_") "/" "_"))
    | _ => Raise AttributeError
    end
  else Ret (VStr "").

(** The sanitizer as the specification words it: every [:] and every [/]
    becomes [_], every other character stays, in order. *)
Definition sanitize_char (c : ascii) : ascii :=
  if (Ascii.eqb c ":" || Ascii.eqb c "/")%char then "_"%char else c.

Fixpoint sanitize (s : string) : string :=
  match s with
  | EmptyString => EmptyString
  | String c s' => String (sanitize_char c) (sanitize s')
  end.

(** ** The process and its surroundings *)

(** What an [import] statement does when it runs: it binds the module, or
    raises [ModuleNotFoundError] (nothing of that name is installed), or
    raises another [ImportError] (installed, but it fails to load). *)
Inductive import_outcome : Type :=
| Imported
| NotFound
| Broken.

(** The calls the module makes on the mlflow client, named as the source
    writes them: [mlflow.set_tag key val] is the call
    [mlflow.set_tag(key, value)]. *)
Module mlflow.
Inductive call : Type :=
| active_run
| start_run
| get_tracking_uri
| set_tag (key val : value)
| set_tags (tags : value)
| log_param (key val : value)
| log_params (params : value)
| log_metric (key val step : value)
| log_metrics (metrics step : value)
| log_artifact (local_path artifact_path : value)
| log_artifacts (local_dir artifact_path : value).
End mlflow.

(** The filesystem operations of [save_text_to_mlflow]. *)
Inductive fs_op : Type :=
| op_mkdtemp
| op_open (path : string)
| op_write (path : string).

Inductive level : Type := INFO | WARNING | ERROR.

(** One call on [logger]; [logger.exception] logs at [ERROR] and attaches
    the exception being handled. *)
Record log_record : Type := mkLog {
  lvl : level;
  text : string;
  exc_info : option exn_class
}.

(** Everything outside the module.  [faults] and [fs_faults] say which
    exception, if any, the mlflow client and the operating system answer a
    request with; [spy] lists the client calls made so far, latest first;
    [log] lists the logger calls, latest first. *)
Record world : Type := mkWorld {
  environ : list (string * string);
  import_mlflow : import_outcome;
  import_pyarrow : import_outcome;
  tracking_uri : option string;
  local_store_uri : string;
  active : option string;
  next_run_id : string;
  faults : mlflow.call -> option exn_class;
  spy : list mlflow.call;
  dirs : list string;
  files : list (string * string);
  tmp_name : string;
  fs_faults : fs_op -> option exn_class;
  log : list log_record
}.

(** The module's globals: the cached flag [_use_mlflow], and whether the
    top-level [import mlflow] / [from mlflow import exceptions] bound the
    names [mlflow] and [exceptions] (the [except] there passes over a
    failed import, leaving both unbound: the mlflow package loads its
    [exceptions] submodule itself, so the two imports stand or fall
    together). *)
Record state : Type := mkState {
  _use_mlflow : option bool;
  mlflow_bound : bool;
  ext : world
}.

Definition with_ext (st : state) (w : world) : state :=
  mkState (_use_mlflow st) (mlflow_bound st) w.

Definition with_flag (st : state) (b : bool) : state :=
  mkState (Some b) (mlflow_bound st) (ext st).

Definition with_log (w : world) (l : list log_record) : world :=
  mkWorld (environ w) (import_mlflow w) (import_pyarrow w) (tracking_uri w)
          (local_store_uri w) (active w) (next_run_id w)
          (faults w) (spy w)
          (dirs w) (files w) (tmp_name w) (fs_faults w) l.

Definition with_spy (w : world) (s : list mlflow.call) : world :=
  mkWorld (environ w) (import_mlflow w) (import_pyarrow w) (tracking_uri w)
          (local_store_uri w) (active w) (next_run_id w)
          (faults w) s
          (dirs w) (files w) (tmp_name w) (fs_faults w) (log w).

Definition with_active (w : world) (a : option string) : world :=
  mkWorld (environ w) (import_mlflow w) (import_pyarrow w) (tracking_uri w)
          (local_store_uri w) a (next_run_id w)
          (faults w) (spy w)
          (dirs w) (files w) (tmp_name w) (fs_faults w) (log w).

Definition with_fs (w : world) (d : list string) (f : list (string * string))
  : world :=
  mkWorld (environ w) (import_mlflow w) (import_pyarrow w) (tracking_uri w)
          (local_store_uri w) (active w) (next_run_id w)
          (faults w) (spy w)
          d f (tmp_name w) (fs_faults w) (log w).

(** Loading the module: lines 10-16 of the source. *)
Definition load_module (w : world) : state :=
  mkState None
          (match import_mlflow w with Imported => true | _ => false end)
          w.

(** ** The monad of the module's functions *)

Definition M (A : Type) : Type := state -> result A * state.

Definition ret {A} (a : A) : M A := fun st => (Ret a, st).

Definition raise {A} (e : exn_class) : M A := fun st => (Raise e, st).

Definition bind {A B} (m : M A) (k : A -> M B) : M B :=
  fun st =>
    match m st with
    | (Ret a, st') => k a st'
    | (Raise e, st') => (Raise e, st')
    end.

Notation "x <- m ;; k" := (bind m (fun x => k))
  (at level 61, m at next level, right associativity).
Notation "m ;; k" := (bind m (fun _ => k))
  (at level 61, right associativity).

(** [try: m  finally: h]: [h] runs on both ways out of [m]. *)
Definition finally {A} (m : M A) (h : state -> state) : M A :=
  fun st => let (r, st') := m st in (r, h st').

Definition get_ext : M world := fun st => (Ret (ext st), st).

Definition put_ext (w : world) : M unit := fun st => (Ret tt, with_ext st w).

(** ** Logging *)

Definition emit (r : log_record) : M unit :=
  fun st => (Ret tt, with_ext st (with_log (ext st) (r :: log (ext st)))).

Definition logger_info (msg : string) : M unit := emit (mkLog INFO msg None).

Definition logger_warning (msg : string) : M unit :=
  emit (mkLog WARNING msg None).

(** [logger.exception(msg)] inside the handler of [e]. *)
Definition logger_exception (msg : string) (e : exn_class) : M unit :=
  emit (mkLog ERROR msg (Some e)).

(** [try: m  except ds: h], where the expression [ds] after [except] is
    evaluated only once [m] has raised, and may itself raise. *)
Definition try_except {A} (m : M A) (ds : M (list exn_class))
    (h : exn_class -> M A) : M A :=
  fun st =>
    match m st with
    | (Ret a, st') => (Ret a, st')
    | (Raise e, st') =>
        match ds st' with
        | (Ret l, st'') => if matches e l then h e st'' else (Raise e, st'')
        | (Raise e', st'') => (Raise e', st'')
        end
    end.

(** ** Feature gate *)

Fixpoint lookup (k : string) (l : list (string * string)) : option string :=
  match l with
  | [] => None
  | (k', v) :: l' => if String.eqb k k' then Some v else lookup k l'
  end.

(** [os.getenv(name, default)]. *)
Definition getenv (name default : string) : M string :=
  w <- get_ext ;;
  ret (match lookup name (environ w) with Some v => v | None => default end).

(** The three imports inside [_detect_mlflow], all of the mlflow package. *)
Definition import_mlflow_now : M unit :=
  w <- get_ext ;;
  match import_mlflow w with
  | Imported => ret tt
  | NotFound => raise ModuleNotFoundError
  | Broken => raise ImportError
  end.

(** [utils.is_tracking_uri_set()]. *)
Definition is_tracking_uri_set : M bool :=
  w <- get_ext ;;
  ret (match tracking_uri w with Some _ => true | None => false end).

(** The [try] statement yields whether the imports went through; its
    handler's [return False] is the [false] branch below. *)
Definition _detect_mlflow : M bool :=
  tf_yarn_use_mlflow <- getenv "TF_YARN_USE_MLFLOW" "" ;;
  if String.eqb tf_yarn_use_mlflow "False" then ret false
  else
    imported <- try_except (import_mlflow_now ;; ret true)
                  (ret [ModuleNotFoundError; ImportError])
                  (fun e =>
                     logger_exception "mlflow is not installed" e ;;
                     ret false) ;;
    if negb imported then ret false
    else
      set <- is_tracking_uri_set ;;
      if negb set
      then logger_warning
             "mlflow tracking uri is not set. will not use mlflow" ;;
           ret false
      else ret true.

Definition use_mlflow : M bool :=
  fun st =>
    match _use_mlflow st with
    | None =>
        match _detect_mlflow st with
        | (Ret b, st') => (Ret b, with_flag st' b)
        | (Raise e, st') => (Raise e, st')
        end
    | Some b => (Ret b, st)
    end.

(** [import pyarrow] under [except ModuleNotFoundError]. *)
Definition _is_pyarrow_installed : M bool :=
  try_except
    (w <- get_ext ;;
     match import_pyarrow w with
     | Imported => ret true
     | NotFound => raise ModuleNotFoundError
     | Broken => raise ImportError
     end)
    (ret [ModuleNotFoundError])
    (fun _ => ret false).

(** ** The mlflow client *)

(** Reading the global name [mlflow] (or [exceptions]). *)
Definition global_mlflow : M unit :=
  fun st =>
    if mlflow_bound st then (Ret tt, st) else (Raise NameError, st).

(** A call reaches the client, which notes it and answers. *)
Definition invoke (c : mlflow.call) : M unit :=
  global_mlflow ;;
  w <- get_ext ;;
  put_ext (with_spy w (c :: spy w)) ;;
  match faults w c with
  | Some e => raise e
  | None => ret tt
  end.

(** [mlflow.active_run()]: the run id of the active run, if any. *)
Definition mlflow_active_run : M (option string) :=
  invoke mlflow.active_run ;;
  w <- get_ext ;;
  ret (active w).

(** [mlflow.start_run()]: refuses when a run is active already, else makes
    the next run the active one. *)
Definition mlflow_start_run : M string :=
  invoke mlflow.start_run ;;
  w <- get_ext ;;
  match active w with
  | Some _ => raise Exception
  | None =>
      put_ext (with_active w (Some (next_run_id w))) ;;
      ret (next_run_id w)
  end.

(** [mlflow.get_tracking_uri()]: the configured endpoint, or the URI of the
    local store when none is. *)
Definition mlflow_get_tracking_uri : M string :=
  invoke mlflow.get_tracking_uri ;;
  w <- get_ext ;;
  ret (match tracking_uri w with
       | Some u => u
       | None => local_store_uri w
       end).

(** ** Decorators *)

(** The tuple after [except]: building it reads the global [exceptions]. *)
Definition except_tuple : M (list exn_class) :=
  global_mlflow ;; ret caught.

(** The handler of both decorators; falling off its end returns [None]. *)
Definition handler (e : exn_class) : M value :=
  logger_exception "mlflow connection error" e ;; ret VNone.

Definition safe_mlflow (f : M value) : M value :=
  try_except f except_tuple handler.

Definition optional_mlflow (f : M value) : M value :=
  enabled <- use_mlflow ;;
  if enabled then try_except f except_tuple handler
  else ret VNone.

(** ** Forwarding functions *)

(** The function under the decorator; with [functools.wraps] it stays
    reachable as [active_run_id.__wrapped__]. *)
Definition active_run_id_body : M value :=
  enabled <- use_mlflow ;;
  if enabled then
    found <- mlflow_active_run ;;
    run_id <- match found with
              | Some r => ret r
              | None =>
                  logger_warning
                    "there is no active mlflow run. starting a new run .." ;;
                  mlflow_start_run
              end ;;
    ret (VStr run_id)
  else ret (VStr "").

Definition active_run_id : M value := safe_mlflow active_run_id_body.

Definition get_tracking_uri : M value :=
  enabled <- use_mlflow ;;
  if enabled then
    uri <- mlflow_get_tracking_uri ;;
    ret (VStr uri)
  else ret (VStr "").

(** A body that is one client call; it returns [None]. *)
Definition forward (c : mlflow.call) : M value := invoke c ;; ret VNone.

Definition set_tag (key val : value) : M value :=
  optional_mlflow (forward (mlflow.set_tag key val)).

Definition set_tags (tags : value) : M value :=
  optional_mlflow (forward (mlflow.set_tags tags)).

Definition log_param (key val : value) : M value :=
  optional_mlflow (forward (mlflow.log_param key val)).

Definition log_params (params : value) : M value :=
  optional_mlflow (forward (mlflow.log_params params)).

(** [step] and [artifact_path] default to [None]: a caller that leaves them
    out passes [VNone]. *)
Definition log_metric (key val step : value) : M value :=
  optional_mlflow (forward (mlflow.log_metric key val step)).

Definition log_metrics (metrics step : value) : M value :=
  optional_mlflow (forward (mlflow.log_metrics metrics step)).

Definition log_artifact (local_path artifact_path : value) : M value :=
  optional_mlflow (forward (mlflow.log_artifact local_path artifact_path)).

Definition log_artifacts (local_dir artifact_path : value) : M value :=
  optional_mlflow (forward (mlflow.log_artifacts local_dir artifact_path)).

(** ** Filesystem *)

Definition ends_with_slash (s : string) : bool :=
  match String.length s with
  | O => false
  | S n => match String.get n s with
           | Some c => Ascii.eqb c "/"
           | None => false
           end
  end.

(** [os.path.join(a, b)] on POSIX, for two components. *)
Definition os_path_join (a : string) (b : value) : M string :=
  match b with
  | VStr b =>
      if String.prefix "/" b then ret b
      else if String.eqb a "" || ends_with_slash a then ret (a ++ b)
      else ret (a ++ "/" ++ b)
  | _ => raise TypeError
  end.

Definition mem (p : string) (l : list string) : bool :=
  existsb (String.eqb p) l.

(** [tempfile.mkdtemp()], which [TemporaryDirectory()] calls: a new
    directory under the name the system picks. *)
Definition mkdtemp : M string :=
  w <- get_ext ;;
  match fs_faults w op_mkdtemp with
  | Some e => raise e
  | None =>
      if mem (tmp_name w) (dirs w) then raise FileExistsError
      else
        put_ext (with_fs w (tmp_name w :: dirs w) (files w)) ;;
        ret (tmp_name w)
  end.

(** [p] is the directory [d] or lies below it. *)
Definition under (d p : string) : bool :=
  String.eqb p d || String.prefix (d ++ "/") p.

(** The cleanup of a [TemporaryDirectory]: the directory goes, with
    everything below it. *)
Definition rmtree (d : string) (st : state) : state :=
  let w := ext st in
  with_ext st
    (with_fs w
       (filter (fun p => negb (under d p)) (dirs w))
       (filter (fun f => negb (under d (fst f))) (files w))).

Definition set_file (p c : string) (l : list (string * string))
  : list (string * string) :=
  (p, c) :: filter (fun f => negb (String.eqb (fst f) p)) l.

(** [with open(path, 'w') as f: f.write(content)]: opening creates or
    empties the file; only a [str] can be written. *)
Definition open_write (path : string) (content : value) : M unit :=
  w <- get_ext ;;
  match fs_faults w (op_open path) with
  | Some e => raise e
  | None =>
      put_ext (with_fs w (dirs w) (set_file path "" (files w))) ;;
      match content with
      | VStr c =>
          match fs_faults w (op_write path) with
          | Some e => raise e
          | None =>
              w' <- get_ext ;;
              put_ext (with_fs w' (dirs w') (set_file path c (files w')))
          end
      | _ => raise TypeError
      end
  end.

(** [with tempfile.TemporaryDirectory() as tempdir: body tempdir]. *)
Definition with_TemporaryDirectory {A} (body : string -> M A) : M A :=
  tempdir <- mkdtemp ;;
  finally (body tempdir) (rmtree tempdir).

(** ** Artifact text helper *)

(** The block under [with tempfile.TemporaryDirectory() as tempdir];
    [mlflow.log_artifact(path)] leaves [artifact_path] at its default,
    [None]. *)
Definition write_and_upload (content filename : value) (tempdir : string)
  : M unit :=
  path <- os_path_join tempdir filename ;;
  open_write path content ;;
  invoke (mlflow.log_artifact (VStr path) VNone).

Definition save_text_to_mlflow_body (content filename : value) : M value :=
  enabled <- use_mlflow ;;
  if negb enabled then ret VNone
  else
    installed <- _is_pyarrow_installed ;;
    if negb installed then
      logger_warning ("Pyarrow is not installed. " ++ str filename
                      ++ " artifact won't be stored on HDFS") ;;
      ret VNone
    else
      logger_info ("save file " ++ str filename ++ " to mlflow") ;;
      with_TemporaryDirectory (write_and_upload content filename) ;;
      ret VNone.

Definition save_text_to_mlflow (content filename : value) : M value :=
  safe_mlflow (save_text_to_mlflow_body content filename).

(** ** The public interface as data *)

Module public.
Inductive call : Type :=
| use_mlflow
| active_run_id
| get_tracking_uri
| set_tag (key val : value)
| set_tags (tags : value)
| log_param (key val : value)
| log_params (params : value)
| log_metric (key val step : value)
| log_metrics (metrics step : value)
| log_artifact (local_path artifact_path : value)
| log_artifacts (local_dir artifact_path : value)
| format_key (key : value)
| save_text_to_mlflow (content filename : value).
End public.

Definition run (c : public.call) : M value :=
  match c with
  | public.use_mlflow => b <- use_mlflow ;; ret (VBool b)
  | public.active_run_id => active_run_id
  | public.get_tracking_uri => get_tracking_uri
  | public.set_tag k v => set_tag k v
  | public.set_tags t => set_tags t
  | public.log_param k v => log_param k v
  | public.log_params p => log_params p
  | public.log_metric k v s => log_metric k v s
  | public.log_metrics m s => log_metrics m s
  | public.log_artifact p a => log_artifact p a
  | public.log_artifacts d a => log_artifacts d a
  | public.format_key k => fun st => (format_key k, st)
  | public.save_text_to_mlflow c f => save_text_to_mlflow c f
  end.

Inductive decorator : Type := Safe | Optional.

(** The decorator over each function, and the function under it. *)
Definition decorated (c : public.call) : option (decorator * M value) :=
  match c with
  | public.use_mlflow | public.get_tracking_uri | public.format_key _ => None
  | public.active_run_id => Some (Safe, active_run_id_body)
  | public.save_text_to_mlflow c f =>
      Some (Safe, save_text_to_mlflow_body c f)
  | public.set_tag k v => Some (Optional, forward (mlflow.set_tag k v))
  | public.set_tags t => Some (Optional, forward (mlflow.set_tags t))
  | public.log_param k v => Some (Optional, forward (mlflow.log_param k v))
  | public.log_params p => Some (Optional, forward (mlflow.log_params p))
  | public.log_metric k v s =>
      Some (Optional, forward (mlflow.log_metric k v s))
  | public.log_metrics m s =>
      Some (Optional, forward (mlflow.log_metrics m s))
  | public.log_artifact p a =>
      Some (Optional, forward (mlflow.log_artifact p a))
  | public.log_artifacts d a =>
      Some (Optional, forward (mlflow.log_artifacts d a))
  end.

Definition decorate (d : decorator) : M value -> M value :=
  match d with
  | Safe => safe_mlflow
  | Optional => optional_mlflow
  end.

(** ** A process over time *)

(** Between two calls into the module anything outside it may change. *)
Inductive action : Type :=
| Call (c : public.call)
| Change (w : world).

Definition step (st : state) (a : action) : state :=
  match a with
  | Call c => snd (run c st)
  | Change w => with_ext st w
  end.

Definition steps (l : list action) (st : state) : state :=
  fold_left step l st.

(** ** Sample surroundings *)

(** A host with mlflow and pyarrow installed, a tracking endpoint
    configured, no active run and nothing going wrong. *)
Definition quiet : world :=
  mkWorld [] Imported Imported (Some "http://tracking:5000")
          "file:///job/mlruns" None "run-1" (fun _ => None) []
          ["/tmp"] [] "/tmp/tmp8x3k2q" (fun _ => None) [].

Definition with_environ (w : world) (env : list (string * string)) : world :=
  mkWorld env (import_mlflow w) (import_pyarrow w) (tracking_uri w)
          (local_store_uri w) (active w) (next_run_id w)
          (faults w) (spy w)
          (dirs w) (files w) (tmp_name w) (fs_faults w) (log w).

Definition with_faults (w : world) (f : mlflow.call -> option exn_class)
  : world :=
  mkWorld (environ w) (import_mlflow w) (import_pyarrow w) (tracking_uri w)
          (local_store_uri w) (active w) (next_run_id w)
          f (spy w)
          (dirs w) (files w) (tmp_name w) (fs_faults w) (log w).

Definition with_fs_faults (w : world) (f : fs_op -> option exn_class)
  : world :=
  mkWorld (environ w) (import_mlflow w) (import_pyarrow w) (tracking_uri w)
          (local_store_uri w) (active w) (next_run_id w)
          (faults w) (spy w)
          (dirs w) (files w) (tmp_name w) f (log w).

Definition with_pyarrow (w : world) (i : import_outcome) : world :=
  mkWorld (environ w) (import_mlflow w) i (tracking_uri w)
          (local_store_uri w) (active w) (next_run_id w)
          (faults w) (spy w)
          (dirs w) (files w) (tmp_name w) (fs_faults w) (log w).

(** The override switched on. *)
Definition overridden : world :=
  with_environ quiet [("TF_YARN_USE_MLFLOW", "False")].

(** The tracking server refuses connections. *)
Definition unreachable : world :=
  with_faults quiet (fun _ => Some ConnectionRefusedError).

(** The server is reachable for reads but cannot start a run. *)
Definition no_new_runs : world :=
  with_faults quiet (fun c => match c with
                              | mlflow.start_run => Some RestException
                              | _ => None
                              end).

(** A filename with a directory part: nothing made that directory, so the
    operating system answers [open] with [FileNotFoundError]. *)
Definition missing_subdir : world :=
  with_fs_faults quiet
    (fun o => match o with
              | op_open p =>
                  if String.eqb p "/tmp/tmp8x3k2q/sub/out.txt"
                  then Some FileNotFoundError else None
              | _ => None
              end).

(** pyarrow is not installed. *)
Definition no_pyarrow : world := with_pyarrow quiet NotFound.

(** The state a handled exception [e] leaves behind [st]. *)
Definition logged (e : exn_class) (st : state) : state :=
  with_ext st
    (with_log (ext st)
       (mkLog ERROR "mlflow connection error" (Some e) :: log (ext st))).

(** What [_detect_mlflow] looks for once the override is out of the way:
    the client library loads and an endpoint is configured. *)
Definition auto_detection (w : world) : bool :=
  match import_mlflow w, tracking_uri w with
  | Imported, Some _ => true
  | _, _ => false
  end.

(** The value of [os.getenv("TF_YARN_USE_MLFLOW", "")]. *)
Definition override (w : world) : string :=
  match lookup "TF_YARN_USE_MLFLOW" (environ w) with
  | Some v => v
  | None => ""
  end.

(** A computation that leaves a flag already set as it is. *)
Definition keeps {A} (m : M A) : Prop :=
  forall st b, _use_mlflow st = Some b -> _use_mlflow (snd (m st)) = Some b.

(** How one step of the module may move the cached flag: not at all, or
    from unset to a decision, which is [True] only if mlflow could be
    imported. *)
Definition flag_step (st st' : state) : Prop :=
  _use_mlflow st' = _use_mlflow st \/
  (_use_mlflow st = None /\
   exists b, _use_mlflow st' = Some b /\
             (b = true -> import_mlflow (ext st) = Imported)).

(** What the module leaves alone when it moves from [st] to [st']: its
    own bindings of [mlflow] and [exceptions], what is installed, how the
    client answers, and a run that is active. *)
Definition evolves (st st' : state) : Prop :=
  mlflow_bound st' = mlflow_bound st /\
  import_mlflow (ext st') = import_mlflow (ext st) /\
  faults (ext st') = faults (ext st) /\
  (forall r, active (ext st) = Some r -> active (ext st') = Some r) /\
  flag_step st st'.

Definition respects {A} (m : M A) : Prop :=
  forall st, evolves st (snd (m st)).

(** The state after the client has noted the call [c]. *)
Definition noted (c : mlflow.call) (st : state) : state :=
  with_ext st (with_spy (ext st) (c :: spy (ext st))).

(** The exception a failed [import] raises. *)
Definition import_error (i : import_outcome) : exn_class :=
  match i with
  | NotFound => ModuleNotFoundError
  | _ => ImportError
  end.

(** pyarrow is installed but fails to load. *)
Definition broken_pyarrow : world := with_pyarrow quiet Broken.

(** No mlflow on the host. *)
Definition no_mlflow : world :=
  mkWorld [] NotFound Imported None
          "file:///job/mlruns" None "run-1" (fun _ => None) []
          ["/tmp"] [] "/tmp/tmp8x3k2q" (fun _ => None) [].

(** mlflow installed, no tracking endpoint configured. *)
Definition no_endpoint : world :=
  mkWorld [] Imported Imported None
          "file:///job/mlruns" None "run-1" (fun _ => None) []
          ["/tmp"] [] "/tmp/tmp8x3k2q" (fun _ => None) [].

(** A run is active already. *)
Definition running : world := with_active quiet (Some "run-0").

(** The path [os.path.join(a, b)] gives for two strings. *)
Definition joined (a b : string) : string :=
  if String.prefix "/" b then b
  else if String.eqb a "" || ends_with_slash a then a ++ b
  else a ++ "/" ++ b.

(** The state after [content] was written to the file at [path]. *)
Definition written (path content : string) (st : state) : state :=
  with_ext st
    (with_fs (ext st) (dirs (ext st)) (set_file path content (files (ext st)))).

(** * Properties *)

(** ** Strings *)

Lemma prefix_one (a c : ascii) (s : string) :
  String.prefix (String a "") (String c s) = Ascii.eqb a c.
Proof.
  simpl. destruct (ascii_dec a c) as [->|n].
  - rewrite Ascii.eqb_refl. now destruct s.
  - symmetry. now apply Ascii.eqb_neq.
Qed.

(** Replacing a one-character string by a one-character string is a
    character-by-character substitution. *)
Lemma replace_one (a b : ascii) (s : string) :
  replace s (String a "") (String b "") =
  (fix go s := match s with
               | EmptyString => EmptyString
               | String c s' =>
                   String (if Ascii.eqb a c then b else c) (go s')
               end) s.
Proof.
  unfold replace. induction s as [|c s IH]; [reflexivity|].
  cbn [replace_from]. rewrite prefix_one.
  cbn [String.length Nat.sub]. rewrite IH.
  now destruct (Ascii.eqb a c).
Qed.

Lemma replace_twice (s : string) :
  replace (replace s ":" "_") "/" "_" = sanitize s.
Proof.
  rewrite !replace_one. induction s as [|c s IH]; [reflexivity|].
  cbn [sanitize]. rewrite IH. f_equal.
  unfold sanitize_char. rewrite (Ascii.eqb_sym c ":"), (Ascii.eqb_sym c "/").
  destruct (Ascii.eqb ":" c) eqn:E; [reflexivity|].
  now destruct (Ascii.eqb "/" c).
Qed.

Lemma sanitize_length (s : string) :
  String.length (sanitize s) = String.length s.
Proof. induction s; simpl; congruence. Qed.

Lemma sanitize_get (s : string) (i : nat) :
  String.get i (sanitize s) = option_map sanitize_char (String.get i s).
Proof.
  revert i. induction s as [|c s IH]; intros [|i]; simpl; auto.
Qed.

(** C6.  For every string [key], [format_key] returns [key] with each [:]
    and each [/] turned into [_] and every other character left where it
    was (same length, position by position); on the empty string and on
    [None] it returns the empty string; and calling it changes nothing in
    the process. *)
Theorem format_key_sanitizes :
  (forall key : string,
      format_key (VStr key) = Ret (VStr (sanitize key)) /\
      String.length (sanitize key) = String.length key /\
      forall i, String.get i (sanitize key) =
                option_map
                  (fun c => if (Ascii.eqb c ":" || Ascii.eqb c "/")%bool
                            then "_"%char else c)
                  (String.get i key)) /\
  format_key (VStr "") = Ret (VStr "") /\
  format_key VNone = Ret (VStr "") /\
  (forall key st, run (public.format_key key) st = (format_key key, st)).
Proof.
  repeat split; try reflexivity.
  - destruct key as [|c s]; [reflexivity|].
    unfold format_key. rewrite replace_twice. reflexivity.
  - apply sanitize_length.
  - intro i. apply sanitize_get.
Qed.

(** ** Feature gate *)

Lemma with_log_same (w : world) : with_log w (log w) = w.
Proof. now destruct w. Qed.

(** Detection returns a boolean on every path and touches the log only. *)
Lemma detect_shape (st : state) :
  exists l,
    _detect_mlflow st =
    (Ret (if String.eqb (override (ext st)) "False" then false
          else auto_detection (ext st)),
     with_ext st (with_log (ext st) (l ++ log (ext st)))) /\
    (String.eqb (override (ext st)) "False" = true -> l = []).
Proof.
  destruct st as [flag bound w].
  unfold _detect_mlflow, getenv, bind, get_ext, ret, override. cbn [ext].
  destruct (String.eqb _ "False") eqn:E.
  - exists []. split; [|reflexivity].
    cbn. now rewrite with_log_same.
  - unfold try_except, import_mlflow_now, is_tracking_uri_set, bind, get_ext,
      ret, raise, auto_detection, logger_exception, logger_warning, emit.
    cbn [ext].
    destruct (import_mlflow w) eqn:I; cbn.
    + destruct (tracking_uri w) eqn:U; cbn.
      * exists []. split; [|discriminate]. cbn. now rewrite with_log_same.
      * eexists [_]. split; [reflexivity|discriminate].
    + eexists [_]. split; [reflexivity|discriminate].
    + eexists [_]. split; [reflexivity|discriminate].
Qed.

Lemma use_mlflow_cached (st : state) (b : bool) :
  _use_mlflow st = Some b -> use_mlflow st = (Ret b, st).
Proof. unfold use_mlflow. now intros ->. Qed.

(** [use_mlflow] always returns a boolean, leaves it in the flag, and
    besides that touches the log only. *)
Lemma use_mlflow_shape (st : state) :
  exists b l,
    use_mlflow st =
    (Ret b, mkState (Some b) (mlflow_bound st)
                    (with_log (ext st) (l ++ log (ext st)))).
Proof.
  unfold use_mlflow. destruct (_use_mlflow st) as [b|] eqn:F.
  - exists b, []. destruct st as [flag bound w]. cbn in *. subst.
    now rewrite with_log_same.
  - destruct (detect_shape st) as [l [-> _]].
    eexists _, l. reflexivity.
Qed.

(** *** The flag, once set, stays *)

Lemma keeps_ret {A} (a : A) : keeps (ret a).
Proof. now intros st b. Qed.

Lemma keeps_raise {A} (e : exn_class) : keeps (@raise A e).
Proof. now intros st b. Qed.

Lemma keeps_bind {A B} (m : M A) (k : A -> M B) :
  keeps m -> (forall a, keeps (k a)) -> keeps (bind m k).
Proof.
  intros Hm Hk st b F. unfold bind.
  specialize (Hm st b F). destruct (m st) as [[a|e] st']; cbn in *; auto.
  now apply Hk.
Qed.

Lemma keeps_try_except {A} (m : M A) ds h :
  keeps m -> keeps ds -> (forall e, keeps (h e)) -> keeps (try_except m ds h).
Proof.
  intros Hm Hd Hh st b F. unfold try_except.
  specialize (Hm st b F). destruct (m st) as [[a|e] st']; cbn in *; auto.
  specialize (Hd st' b Hm). destruct (ds st') as [[l|e'] st'']; cbn in *; auto.
  destruct (matches e l); cbn; auto. now apply Hh.
Qed.

Lemma keeps_finally {A} (m : M A) (h : state -> state) :
  keeps m -> (forall st, _use_mlflow (h st) = _use_mlflow st) ->
  keeps (finally m h).
Proof.
  intros Hm Hh st b F. unfold finally.
  specialize (Hm st b F). destruct (m st) as [r st']; cbn in *.
  now rewrite Hh.
Qed.

Lemma keeps_get_ext : keeps get_ext.
Proof. now intros st b. Qed.

Lemma keeps_put_ext w : keeps (put_ext w).
Proof. now intros st b. Qed.

Lemma keeps_emit r : keeps (emit r).
Proof. now intros st b. Qed.

Lemma keeps_global_mlflow : keeps global_mlflow.
Proof. intros st b F. unfold global_mlflow. now destruct (mlflow_bound st). Qed.

Lemma keeps_use_mlflow : keeps use_mlflow.
Proof. intros st b F. now rewrite (use_mlflow_cached st b F). Qed.

Ltac keeps_step :=
  first
    [ apply keeps_ret | apply keeps_raise | apply keeps_get_ext
    | apply keeps_put_ext | apply keeps_emit | apply keeps_global_mlflow
    | apply keeps_use_mlflow
    | apply keeps_bind; [|intro]
    | apply keeps_try_except; [| |intro]
    | apply keeps_finally; [|reflexivity]
    | match goal with
      | |- keeps (match ?x with _ => _ end) => destruct x
      end ].

Ltac keeps_all := repeat keeps_step.

Lemma keeps_invoke c : keeps (invoke c).
Proof. unfold invoke. keeps_all. Qed.

Lemma keeps_decorate d f : keeps f -> keeps (decorate d f).
Proof.
  intro Hf.
  destruct d; unfold decorate, safe_mlflow, optional_mlflow, except_tuple,
    handler, logger_exception; keeps_all; assumption.
Qed.

Lemma keeps_forward c : keeps (forward c).
Proof. unfold forward. keeps_all. Qed.

Lemma keeps_active_run_id_body : keeps active_run_id_body.
Proof.
  unfold active_run_id_body, mlflow_active_run, mlflow_start_run,
    logger_warning.
  keeps_all.
Qed.

Lemma keeps_save_text_to_mlflow_body c f :
  keeps (save_text_to_mlflow_body c f).
Proof.
  unfold save_text_to_mlflow_body, _is_pyarrow_installed,
    with_TemporaryDirectory, write_and_upload, mkdtemp, os_path_join,
    open_write, logger_warning, logger_info.
  keeps_all.
Qed.

Lemma keeps_run (c : public.call) : keeps (run c).
Proof.
  destruct c; cbn [run];
    try (apply (keeps_decorate Optional), keeps_forward).
  - keeps_all.
  - apply (keeps_decorate Safe), keeps_active_run_id_body.
  - unfold get_tracking_uri, mlflow_get_tracking_uri.
    keeps_all.
  - now intros st b.
  - apply (keeps_decorate Safe), keeps_save_text_to_mlflow_body.
Qed.

Lemma steps_keep (l : list action) (st : state) (b : bool) :
  _use_mlflow st = Some b -> _use_mlflow (steps l st) = Some b.
Proof.
  revert st. induction l as [|a l IH]; intros st F; [assumption|].
  cbn [steps fold_left]. apply IH. destruct a as [c|w]; cbn [step].
  - now apply keeps_run.
  - assumption.
Qed.

(** C5.  The flag is computed at most once: the first [use_mlflow()]
    returns a boolean [b], and after any later history -- calls into the
    module, and changes of the environment variable, of the installed
    libraries, of the tracking configuration or of anything else outside
    the module -- [use_mlflow()] returns the same [b] and leaves the whole
    state, log included, as it found it. *)
Theorem use_mlflow_once (st : state) :
  exists b,
    fst (use_mlflow st) = Ret b /\
    forall history : list action,
      let later := steps history (snd (use_mlflow st)) in
      use_mlflow later = (Ret b, later).
Proof.
  destruct (use_mlflow_shape st) as [b [l E]].
  exists b. rewrite E. cbn [fst snd]. split; [reflexivity|].
  intro history. cbv zeta. apply use_mlflow_cached.
  now apply steps_keep.
Qed.

(** C4, as stated, fails: a process that first asked the gate when the
    variable was unset holds [True] in its flag, and a later
    [TF_YARN_USE_MLFLOW=False] does not change what [use_mlflow()]
    returns. *)
Lemma override_after_first_use :
  let st := steps [Call public.use_mlflow; Change overridden]
                  (load_module quiet) in
  override (ext st) = "False" /\ fst (use_mlflow st) = Ret true.
Proof. split; reflexivity. Qed.

(** C4, amended.  [_detect_mlflow()] returns false when the variable is the
    string [False], whether or not the client library loads and an endpoint
    is configured, and with any other value (unset included) returns what
    auto-detection finds.  [use_mlflow()] does the same as long as no
    decision is cached; under the override it then only sets the flag,
    importing and logging nothing. *)
Theorem override_at_detection (st : state) :
  fst (_detect_mlflow st) =
    Ret (if String.eqb (override (ext st)) "False" then false
         else auto_detection (ext st)) /\
  (_use_mlflow st = None ->
   (override (ext st) = "False" ->
    use_mlflow st = (Ret false, with_flag st false)) /\
   (override (ext st) <> "False" ->
    fst (use_mlflow st) = Ret (auto_detection (ext st)))).
Proof.
  destruct (detect_shape st) as [l [E L]]. split.
  - now rewrite E.
  - intro F. unfold use_mlflow. rewrite F, E. split; intro O.
    + apply String.eqb_eq in O. rewrite O. rewrite (L O). cbn [app].
      rewrite with_log_same. now destruct st.
    + apply String.eqb_neq in O. now rewrite O.
Qed.

Lemma override_at_detection_witness :
  _use_mlflow (load_module overridden) = None /\
  override (ext (load_module overridden)) = "False" /\
  use_mlflow (load_module overridden) =
    (Ret false, with_flag (load_module overridden) false).
Proof.
  split; [reflexivity|]. split; [reflexivity|].
  apply (proj2 (override_at_detection (load_module overridden)));
    reflexivity.
Defined.

(** ** Decorators *)

Lemma run_decorated (c : public.call) (d : decorator) (f : M value) :
  decorated c = Some (d, f) -> run c = decorate d f.
Proof. destruct c; cbn; intro E; inversion E; reflexivity. Qed.

(** The [except] clause with the module's imports in place. *)
Lemma try_except_bound (f : M value) (st st1 : state) (e : exn_class) :
  f st = (Raise e, st1) ->
  mlflow_bound st1 = true ->
  try_except f except_tuple handler st =
    if matches e caught then (Ret VNone, logged e st1) else (Raise e, st1).
Proof.
  intros E B. unfold try_except. rewrite E.
  unfold except_tuple, global_mlflow, bind, ret. rewrite B.
  destruct (matches e caught); reflexivity.
Qed.

Lemma decorate_bound (d : decorator) (f : M value) (st st0 st1 : state)
    (e : exn_class) :
  use_mlflow st = (Ret true, st0) ->
  f (match d with Safe => st | Optional => st0 end) = (Raise e, st1) ->
  mlflow_bound st1 = true ->
  decorate d f st =
    if matches e caught then (Ret VNone, logged e st1) else (Raise e, st1).
Proof.
  intros G E B. destruct d; cbn [decorate].
  - now apply try_except_bound.
  - unfold optional_mlflow, bind. rewrite G. now apply try_except_bound.
Qed.

(** Whatever leaves a decorated function is outside the caught classes. *)
Lemma decorate_no_escape (d : decorator) (f : M value) (st : state)
    (e : exn_class) :
  fst (decorate d f st) = Raise e -> matches e caught = false.
Proof.
  assert (T : forall st, fst (try_except f except_tuple handler st) = Raise e ->
                         matches e caught = false).
  { clear st. intros st. unfold try_except.
    destruct (f st) as [[v|e0] st']; [discriminate|].
    unfold except_tuple, global_mlflow, bind, ret.
    destruct (mlflow_bound st').
    - destruct (matches e0 caught) eqn:C; [discriminate|].
      cbn [fst]. intro E. now inversion E; subst.
    - cbn [fst]. intro E. now inversion E. }
  destruct d; cbn [decorate]; [apply T|].
  unfold optional_mlflow, bind.
  destruct (use_mlflow_shape st) as [b [l ->]].
  destruct b; [apply T|discriminate].
Qed.

(** C1, as stated, fails: with tracking on, a filename that points into a
    directory nobody created makes [open] raise [FileNotFoundError], which
    [save_text_to_mlflow] passes on to its caller. *)
Lemma filesystem_error_escapes :
  fst (run (public.save_text_to_mlflow (VStr "hello") (VStr "sub/out.txt"))
           (load_module missing_subdir))
  = Raise FileNotFoundError.
Proof. reflexivity. Qed.

(** C1, amended.  [use_mlflow] never raises.  From a function under
    [safe_mlflow] or [optional_mlflow] no [ConnectionError] and no
    [MlflowException] (nor a subclass of either) ever reaches the caller,
    on any input and in any surroundings: when the function body raises
    (with the module's imports in place, and tracking on for
    [optional_mlflow]), an exception of those classes is logged and the
    call returns [None], and an exception of any other class goes on to
    the caller.  [get_tracking_uri], under no decorator, passes on whatever
    the client raises. *)
Theorem only_uncaught_classes_escape (st : state) :
  (exists b, fst (use_mlflow st) = Ret b) /\
  (forall c d f,
      decorated c = Some (d, f) ->
      (forall e, fst (run c st) = Raise e -> matches e caught = false) /\
      (forall st0 st1 e,
          use_mlflow st = (Ret true, st0) ->
          f (match d with Safe => st | Optional => st0 end) = (Raise e, st1) ->
          mlflow_bound st1 = true ->
          run c st = if matches e caught then (Ret VNone, logged e st1)
                     else (Raise e, st1))) /\
  (forall e,
      fst (use_mlflow st) = Ret true ->
      mlflow_bound st = true ->
      faults (ext st) mlflow.get_tracking_uri = Some e ->
      fst (get_tracking_uri st) = Raise e).
Proof.
  split; [|split].
  - destruct (use_mlflow_shape st) as [b [l ->]]. now exists b.
  - intros c d f D. rewrite (run_decorated c d f D). split.
    + intro e. apply decorate_no_escape.
    + intros st0 st1 e G E B. exact (decorate_bound d f st st0 st1 e G E B).
  - intros e G B F. unfold get_tracking_uri, bind at 1.
    destruct (use_mlflow_shape st) as [b [l E]]. rewrite E in *.
    cbn [fst] in G. inversion G; subst b.
    unfold mlflow_get_tracking_uri, invoke, global_mlflow, bind, ret, raise,
      get_ext, put_ext.
    cbn [mlflow_bound ext with_log faults]. rewrite B.
    cbn [ext with_ext with_spy with_log faults]. now rewrite F.
Qed.

Lemma only_uncaught_classes_escape_witness :
  let st := load_module missing_subdir in
  let body := save_text_to_mlflow_body (VStr "hello") (VStr "sub/out.txt") in
  fst (body st) = Raise FileNotFoundError /\
  matches FileNotFoundError caught = false /\
  run (public.save_text_to_mlflow (VStr "hello") (VStr "sub/out.txt")) st
  = (Raise FileNotFoundError, snd (body st)).
Proof.
  split; [reflexivity|]. split; [reflexivity|].
  refine (proj2 (proj1 (proj2 (only_uncaught_classes_escape
                                 (load_module missing_subdir)))
                   (public.save_text_to_mlflow (VStr "hello")
                      (VStr "sub/out.txt"))
                   Safe _ eq_refl)
            (snd (use_mlflow (load_module missing_subdir))) _
            FileNotFoundError _ _ _);
    reflexivity.
Defined.

(** C2.  Under either decorator, with tracking on, when the decorated
    function raises a [ConnectionError] or an [MlflowException] (or a
    subclass) the call returns [None], one record at exception level
    carrying that exception is added to the log, and nothing is raised.
    The module's import of mlflow is taken to have succeeded, so that the
    class [exceptions.MlflowException] named by the [except] clause
    exists.  The same holds of every decorated function of the module. *)
Theorem wrapped_call_swallows (d : decorator) (f : M value)
    (st st0 st1 : state) (e : exn_class) :
  use_mlflow st = (Ret true, st0) ->
  f (match d with Safe => st | Optional => st0 end) = (Raise e, st1) ->
  matches e caught = true ->
  mlflow_bound st1 = true ->
  decorate d f st = (Ret VNone, logged e st1) /\
  log (ext (logged e st1)) =
    mkLog ERROR "mlflow connection error" (Some e) :: log (ext st1) /\
  forall c, decorated c = Some (d, f) -> run c st = (Ret VNone, logged e st1).
Proof.
  intros G E C B.
  assert (R : decorate d f st = (Ret VNone, logged e st1)).
  { rewrite (decorate_bound d f st st0 st1 e G E B). now rewrite C. }
  split; [exact R|]. split; [reflexivity|].
  intros c D. now rewrite (run_decorated c d f D).
Qed.

Lemma wrapped_call_swallows_witness :
  let st := load_module unreachable in
  let f := forward (mlflow.set_tag (VStr "phase") (VStr "train")) in
  matches ConnectionRefusedError caught = true /\
  set_tag (VStr "phase") (VStr "train") st =
    (Ret VNone, logged ConnectionRefusedError (snd (f (snd (use_mlflow st))))).
Proof.
  split; [reflexivity|].
  refine (proj1 (wrapped_call_swallows Optional
                   (forward (mlflow.set_tag (VStr "phase") (VStr "train")))
                   (load_module unreachable)
                   (snd (use_mlflow (load_module unreachable)))
                   _ ConnectionRefusedError _ _ _ _));
    reflexivity.
Defined.

(** C3.  When the gate says tracking is off, each function under
    [optional_mlflow] returns [None] and does nothing beyond the gate's own
    work: the client is not called and its active run is untouched, and so
    are the files and directories. *)
Theorem disabled_is_noop (c : public.call) (f : M value) (st : state) :
  decorated c = Some (Optional, f) ->
  fst (use_mlflow st) = Ret false ->
  run c st = (Ret VNone, snd (use_mlflow st)) /\
  spy (ext (snd (run c st))) = spy (ext st) /\
  active (ext (snd (run c st))) = active (ext st) /\
  files (ext (snd (run c st))) = files (ext st) /\
  dirs (ext (snd (run c st))) = dirs (ext st).
Proof.
  intros D G. rewrite (run_decorated c _ f D).
  cbn [decorate]. unfold optional_mlflow, bind.
  destruct (use_mlflow_shape st) as [b [l E]]. rewrite E in *.
  cbn [fst] in G. inversion G; subst b. cbn. repeat split; reflexivity.
Qed.

Lemma disabled_is_noop_witness :
  let st := load_module overridden in
  fst (use_mlflow st) = Ret false /\
  log_metric (VStr "loss") (VInt 3) VNone st = (Ret VNone, snd (use_mlflow st)).
Proof.
  split; [reflexivity|].
  apply (disabled_is_noop (public.log_metric (VStr "loss") (VInt 3) VNone)
           (forward (mlflow.log_metric (VStr "loss") (VInt 3) VNone))
           (load_module overridden)); reflexivity.
Defined.

(** ** Run identifier *)

Ltac unfold_client :=
  unfold mlflow_active_run, mlflow_start_run, mlflow_get_tracking_uri,
    invoke, global_mlflow, logger_warning, logger_info, logger_exception,
    emit, bind, ret, raise, get_ext, put_ext.

(** [active_run_id] when tracking is off. *)
Lemma active_run_id_disabled (st : state) :
  fst (use_mlflow st) = Ret false ->
  active_run_id st = (Ret (VStr ""), snd (use_mlflow st)).
Proof.
  intro G. unfold active_run_id, safe_mlflow, try_except, active_run_id_body,
    bind.
  destruct (use_mlflow_shape st) as [b [l E]]. rewrite E in *.
  cbn [fst] in G. inversion G; subst b. reflexivity.
Qed.

(** The body of [active_run_id] with tracking on, case by case on what the
    client answers. *)
Lemma active_run_id_body_enabled (st : state) :
  fst (use_mlflow st) = Ret true ->
  mlflow_bound st = true ->
  let w := ext st in
  let r := active_run_id_body st in
  match faults w mlflow.active_run, active w, faults w mlflow.start_run with
  | Some e, _, _ => fst r = Raise e
  | None, Some run_id, _ =>
      fst r = Ret (VStr run_id) /\ active (ext (snd r)) = Some run_id
  | None, None, Some e =>
      fst r = Raise e /\ active (ext (snd r)) = None
  | None, None, None =>
      fst r = Ret (VStr (next_run_id w)) /\
      active (ext (snd r)) = Some (next_run_id w) /\
      In (mkLog WARNING "there is no active mlflow run. starting a new run .."
                None)
         (log (ext (snd r)))
  end /\
  mlflow_bound (snd r) = true.
Proof.
  intros G B. cbv zeta.
  destruct (use_mlflow_shape st) as [b [l E]]. rewrite E in G.
  cbn [fst] in G. inversion G; subst b. clear G.
  replace (active_run_id_body st) with
    (active_run_id_body (mkState (Some true) true
                           (with_log (ext st) (l ++ log (ext st))))).
  2:{ unfold active_run_id_body, bind. rewrite E, B. reflexivity. }
  clear E. destruct st as [flag bound w]. cbn [ext mlflow_bound] in *.
  unfold active_run_id_body, use_mlflow. unfold_client. cbn.
  destruct (faults w mlflow.active_run) as [e|]; cbn; [now split|].
  destruct (active w) as [run_id|] eqn:A; cbn; [now rewrite A|].
  destruct (faults w mlflow.start_run) as [e|]; cbn; [now rewrite A|].
  rewrite A. cbn. repeat split. now left.
Qed.

(** C7.  With tracking off [active_run_id()] returns the empty string.
    With tracking on and the client answering (the module's [mlflow] name
    is bound and [mlflow.active_run()] does not raise), it returns the
    identifier of the active run when there is one; when there is none and
    [mlflow.start_run()] does not raise, it logs a warning, starts a run,
    which becomes the active one, and returns its identifier. *)
Theorem active_run_id_returns (st : state) :
  (fst (use_mlflow st) = Ret false ->
   fst (active_run_id st) = Ret (VStr "")) /\
  (fst (use_mlflow st) = Ret true ->
   mlflow_bound st = true ->
   faults (ext st) mlflow.active_run = None ->
   (forall run_id,
       active (ext st) = Some run_id ->
       fst (active_run_id st) = Ret (VStr run_id) /\
       active (ext (snd (active_run_id st))) = Some run_id) /\
   (active (ext st) = None ->
    faults (ext st) mlflow.start_run = None ->
    fst (active_run_id st) = Ret (VStr (next_run_id (ext st))) /\
    active (ext (snd (active_run_id st))) = Some (next_run_id (ext st)) /\
    In (mkLog WARNING "there is no active mlflow run. starting a new run .."
              None)
       (log (ext (snd (active_run_id st)))))).
Proof.
  split.
  - intro G. now rewrite (active_run_id_disabled st G).
  - intros G B F.
    pose proof (active_run_id_body_enabled st G B) as H. cbv zeta in H.
    rewrite F in H.
    assert (S : forall v, fst (active_run_id_body st) = Ret v ->
                          active_run_id st = active_run_id_body st).
    { intros v R. unfold active_run_id, safe_mlflow, try_except.
      destruct (active_run_id_body st) as [[v'|e] st']; [reflexivity|].
      discriminate. }
    split.
    + intros run_id A. rewrite A in H. destruct H as [[R A'] _].
      now rewrite (S _ R).
    + intros A F'. rewrite A, F' in H. destruct H as [[R [A' W]] _].
      now rewrite (S _ R).
Qed.

Lemma active_run_id_returns_witness :
  let st := load_module quiet in
  fst (use_mlflow st) = Ret true /\
  active (ext st) = None /\
  fst (active_run_id st) = Ret (VStr "run-1") /\
  active (ext (snd (active_run_id st))) = Some "run-1".
Proof.
  split; [reflexivity|]. split; [reflexivity|].
  destruct (proj2 (proj2 (active_run_id_returns (load_module quiet))
                     eq_refl eq_refl eq_refl) eq_refl eq_refl)
    as [R [A _]].
  split; [exact R|exact A].
Defined.

(** C10.  With tracking on, when the client call behind [active_run_id()]
    -- [mlflow.active_run()], or [mlflow.start_run()] when no run is
    active -- raises a [ConnectionError] or an [MlflowException] (or a
    subclass), [active_run_id()] returns [None], which is not the empty
    string.  The empty string is what it returns with tracking off; with
    tracking on, a string it returns is a run identifier the client
    gave. *)
Theorem active_run_id_none_on_error (st : state) :
  (fst (use_mlflow st) = Ret true ->
   mlflow_bound st = true ->
   forall e,
     matches e caught = true ->
     faults (ext st) mlflow.active_run = Some e \/
     (faults (ext st) mlflow.active_run = None /\
      active (ext st) = None /\
      faults (ext st) mlflow.start_run = Some e) ->
     fst (active_run_id st) = Ret VNone /\
     fst (active_run_id st) <> Ret (VStr "")) /\
  (fst (use_mlflow st) = Ret false ->
   fst (active_run_id st) = Ret (VStr "")) /\
  (fst (use_mlflow st) = Ret true ->
   mlflow_bound st = true ->
   forall s,
     fst (active_run_id st) = Ret (VStr s) ->
     active (ext st) = Some s \/ s = next_run_id (ext st)).
Proof.
  split; [|split].
  - intros G B e C F.
    pose proof (active_run_id_body_enabled st G B) as H. cbv zeta in H.
    assert (R : fst (active_run_id_body st) = Raise e).
    { destruct F as [F|[F [A F']]].
      - rewrite F in H. tauto.
      - rewrite F, A, F' in H. tauto. }
    destruct H as [_ B'].
    assert (N : fst (active_run_id st) = Ret VNone).
    { unfold active_run_id, safe_mlflow.
      destruct (active_run_id_body st) as [r st1] eqn:E. cbn [fst snd] in *.
      subst r. rewrite (try_except_bound _ st st1 e E B'). now rewrite C. }
    split; [exact N|]. rewrite N. discriminate.
  - intro G. now rewrite (active_run_id_disabled st G).
  - intros G B s R.
    pose proof (active_run_id_body_enabled st G B) as H. cbv zeta in H.
    destruct H as [H B'].
    unfold active_run_id, safe_mlflow in R.
    destruct (active_run_id_body st) as [r st1] eqn:E. cbn [fst snd] in *.
    destruct r as [v|e].
    + unfold try_except in R. rewrite E in R. cbn [fst] in R.
      inversion R; subst v.
      destruct (faults (ext st) mlflow.active_run); [discriminate|].
      destruct (active (ext st)) as [run_id|].
      * destruct H as [H _]. inversion H. now left.
      * destruct (faults (ext st) mlflow.start_run).
        -- destruct H; discriminate.
        -- destruct H as [H _]. inversion H. now right.
    + rewrite (try_except_bound _ st st1 e E B') in R.
      destruct (matches e caught); discriminate.
Qed.

Lemma active_run_id_none_on_error_witness :
  let st := load_module no_new_runs in
  fst (use_mlflow st) = Ret true /\
  matches RestException caught = true /\
  fst (active_run_id st) = Ret VNone.
Proof.
  split; [reflexivity|]. split; [reflexivity|].
  apply (proj1 (active_run_id_none_on_error (load_module no_new_runs))
           eq_refl eq_refl RestException eq_refl).
  right. repeat split; reflexivity.
Defined.

(** ** Artifact text helper *)

Lemma under_self (d : string) : under d d = true.
Proof. unfold under. now rewrite String.eqb_refl. Qed.

Lemma mem_filter_out (d : string) (l : list string) :
  mem d (filter (fun p => negb (under d p)) l) = false.
Proof.
  unfold mem. induction l as [|p l IH]; [reflexivity|].
  cbn [filter]. destruct (under d p) eqn:U; cbn [negb]; [exact IH|].
  cbn [existsb]. rewrite IH, orb_false_r.
  apply String.eqb_neq. intros ->. now rewrite under_self in U.
Qed.

(** After the cleanup the directory is gone, nothing is left below it, and
    no directory has appeared. *)
Lemma rmtree_clean (d : string) (st : state) :
  mem d (dirs (ext (rmtree d st))) = false /\
  (forall p c, In (p, c) (files (ext (rmtree d st))) -> under d p = false) /\
  (forall p, In p (dirs (ext (rmtree d st))) ->
             In p (dirs (ext st)) /\ p <> d).
Proof.
  unfold rmtree. cbn. split; [apply mem_filter_out|]. split.
  - intros p c I. apply filter_In in I. destruct I as [_ I].
    cbn in I. now destruct (under d p).
  - intros p I. apply filter_In in I. destruct I as [I U].
    split; [exact I|]. intros ->. now rewrite under_self in U.
Qed.

(** The handler of the decorators leaves files and directories alone. *)
Lemma safe_mlflow_fs (f : M value) (st : state) :
  dirs (ext (snd (safe_mlflow f st))) = dirs (ext (snd (f st))) /\
  files (ext (snd (safe_mlflow f st))) = files (ext (snd (f st))) /\
  spy (ext (snd (safe_mlflow f st))) = spy (ext (snd (f st))).
Proof.
  unfold safe_mlflow, try_except.
  destruct (f st) as [[v|e] st']; [now cbn|].
  unfold except_tuple, global_mlflow, bind, ret.
  destruct (mlflow_bound st'); [|now cbn].
  destruct (matches e caught); now cbn.
Qed.

(** The block under [with] creates and removes no directory. *)
Lemma write_and_upload_dirs (content filename : value) (tempdir : string)
    (st : state) :
  dirs (ext (snd (write_and_upload content filename tempdir st))) =
  dirs (ext st).
Proof.
  unfold write_and_upload, os_path_join, open_write, invoke, global_mlflow,
    bind, ret, raise, get_ext, put_ext.
  destruct filename as [| | |fname|]; try reflexivity.
  destruct (String.prefix "/" fname); [|destruct (_ || _)]; cbn;
    match goal with
    | |- context [fs_faults (ext st) (op_open ?p)] =>
        destruct (fs_faults (ext st) (op_open p)); cbn; try reflexivity;
        destruct content; cbn; try reflexivity;
        destruct (fs_faults (ext st) (op_write p)); cbn; try reflexivity;
        destruct (mlflow_bound st); cbn; try reflexivity;
        match goal with
        | |- context [faults (ext st) ?c] =>
            destruct (faults (ext st) c); reflexivity
        end
    end.
Qed.

(** What [with TemporaryDirectory()] leaves behind: when the directory was
    created, the state its block ended in, cleaned up; else the state it
    started from. *)
Lemma with_TemporaryDirectory_leaves {A} (body : string -> M A) (st : state) :
  let w := ext st in
  snd (with_TemporaryDirectory body st) =
  match fs_faults w op_mkdtemp with
  | Some _ => st
  | None =>
      if mem (tmp_name w) (dirs w) then st
      else rmtree (tmp_name w)
             (snd (body (tmp_name w)
                     (with_ext st
                        (with_fs w (tmp_name w :: dirs w) (files w)))))
  end.
Proof.
  cbv zeta.
  unfold with_TemporaryDirectory, finally, mkdtemp, bind, ret, raise,
    get_ext, put_ext.
  destruct (fs_faults (ext st) op_mkdtemp); [reflexivity|].
  destruct (mem (tmp_name (ext st)) (dirs (ext st))); [reflexivity|].
  now destruct (body _ _).
Qed.

(** With tracking on and pyarrow importable, [save_text_to_mlflow]'s body
    ends where its [with] statement ends, entered after the gate and one
    [info] record. *)
Lemma save_text_upload_stage (content filename : value) (st : state) :
  fst (use_mlflow st) = Ret true ->
  import_pyarrow (ext st) = Imported ->
  exists l,
    snd (save_text_to_mlflow_body content filename st) =
    snd (with_TemporaryDirectory (write_and_upload content filename)
           (mkState (Some true) (mlflow_bound st) (with_log (ext st) l))).
Proof.
  intros G P. destruct (use_mlflow_shape st) as [b [l E]]. rewrite E in G.
  cbn [fst] in G. inversion G; subst b.
  unfold save_text_to_mlflow_body. unfold bind at 1. rewrite E. cbn [negb].
  unfold _is_pyarrow_installed, try_except, logger_info, emit, bind, ret,
    raise, get_ext. cbn [ext import_pyarrow with_log]. rewrite P.
  cbn [negb matches].
  exists (mkLog INFO ("save file " ++ str filename ++ " to mlflow") None
            :: l ++ log (ext st)).
  match goal with
  | |- snd (let (r, st') := ?m ?s in _) = snd (?m ?s') =>
      change s with s'; now destruct (m s') as [[u|e] st']
  end.
Qed.

(** C8.  Whenever [save_text_to_mlflow] gets as far as the upload stage
    (tracking on, pyarrow importable), the temporary directory it creates
    is gone when the call is over, however the call ends -- upload done,
    client exception, filesystem error, wrong argument type -- and so is
    everything below it; and in no case, the directory created or not,
    does the call leave a directory that was not there before. *)
Theorem tempdir_removed (content filename : value) (st : state) :
  fst (use_mlflow st) = Ret true ->
  import_pyarrow (ext st) = Imported ->
  let after := ext (snd (save_text_to_mlflow content filename st)) in
  let tempdir := tmp_name (ext st) in
  (fs_faults (ext st) op_mkdtemp = None ->
   mem tempdir (dirs (ext st)) = false ->
   mem tempdir (dirs after) = false /\
   forall p c, In (p, c) (files after) -> under tempdir p = false) /\
  (forall p, In p (dirs after) -> In p (dirs (ext st))).
Proof.
  intros G P. cbv zeta. unfold save_text_to_mlflow.
  destruct (safe_mlflow_fs (save_text_to_mlflow_body content filename) st)
    as [-> [-> _]].
  destruct (save_text_upload_stage content filename st G P) as [l ->].
  rewrite with_TemporaryDirectory_leaves. cbn [ext with_log fs_faults
    tmp_name dirs files].
  destruct (fs_faults (ext st) op_mkdtemp) as [e|].
  { split; [discriminate|]. now cbn. }
  destruct (mem (tmp_name (ext st)) (dirs (ext st))).
  { split; [discriminate|]. now cbn. }
  match goal with
  | |- context [rmtree ?d ?s] =>
      destruct (rmtree_clean d s) as [C1 [C2 C3]];
      pose proof (write_and_upload_dirs content filename d) as D
  end.
  split.
  - intros _ _. split; [exact C1|exact C2].
  - intros p I. destruct (C3 p I) as [I' N].
    rewrite D in I'. cbn in I'. destruct I' as [E|I']; [|exact I'].
    now elim N.
Qed.

(** While the block under [with] runs the directory is there: the client
    is handed a path below it, and the file at that path holds the text. *)
Example upload_sees_file :
  let entered := snd (mkdtemp (snd (use_mlflow (load_module quiet)))) in
  let inside :=
    ext (snd (write_and_upload (VStr "hello") (VStr "out.txt")
                "/tmp/tmp8x3k2q" entered)) in
  dirs inside = ["/tmp/tmp8x3k2q"; "/tmp"] /\
  files inside = [("/tmp/tmp8x3k2q/out.txt", "hello")] /\
  spy inside = [mlflow.log_artifact (VStr "/tmp/tmp8x3k2q/out.txt") VNone].
Proof. repeat split; reflexivity. Qed.

(** The three ways out of the upload stage: upload done, the client
    refusing the connection, [open] failing. *)
Lemma tempdir_removed_witness :
  (let st := load_module quiet in
   fst (save_text_to_mlflow (VStr "hello") (VStr "out.txt") st) = Ret VNone /\
   mem "/tmp/tmp8x3k2q"
       (dirs (ext (snd (save_text_to_mlflow (VStr "hello") (VStr "out.txt")
                          st)))) = false) /\
  (let st := load_module unreachable in
   fst (save_text_to_mlflow (VStr "hello") (VStr "out.txt") st) = Ret VNone /\
   mem "/tmp/tmp8x3k2q"
       (dirs (ext (snd (save_text_to_mlflow (VStr "hello") (VStr "out.txt")
                          st)))) = false) /\
  (let st := load_module missing_subdir in
   fst (save_text_to_mlflow (VStr "hello") (VStr "sub/out.txt") st)
   = Raise FileNotFoundError /\
   mem "/tmp/tmp8x3k2q"
       (dirs (ext (snd (save_text_to_mlflow (VStr "hello")
                          (VStr "sub/out.txt") st)))) = false).
Proof.
  split; [|split]; (split; [reflexivity|]).
  - apply (proj1 (tempdir_removed (VStr "hello") (VStr "out.txt")
                    (load_module quiet) eq_refl eq_refl) eq_refl eq_refl).
  - apply (proj1 (tempdir_removed (VStr "hello") (VStr "out.txt")
                    (load_module unreachable) eq_refl eq_refl)
             eq_refl eq_refl).
  - apply (proj1 (tempdir_removed (VStr "hello") (VStr "sub/out.txt")
                    (load_module missing_subdir) eq_refl eq_refl)
             eq_refl eq_refl).
Defined.

(** C9, as stated, fails: with tracking off the function returns before it
    looks for pyarrow, so a missing pyarrow draws no warning; here the log
    stays empty. *)
Lemma no_warning_when_disabled :
  let st := load_module (with_pyarrow overridden NotFound) in
  import_pyarrow (ext st) = NotFound /\
  save_text_to_mlflow (VStr "hello") (VStr "out.txt") st =
    (Ret VNone, with_flag st false) /\
  log (ext (snd (save_text_to_mlflow (VStr "hello") (VStr "out.txt") st))) = [].
Proof. repeat split; reflexivity. Qed.

(** C9, amended.  When pyarrow is not installed, [save_text_to_mlflow]
    returns [None] without raising, writes no file, creates no directory
    and makes no client call, whatever [content] and [filename] are.  With
    tracking on it logs one warning that names the file; with tracking off
    it does nothing beyond the gate's own work. *)
Theorem no_pyarrow_is_noop (content filename : value) (st : state) :
  import_pyarrow (ext st) = NotFound ->
  let r := save_text_to_mlflow content filename st in
  fst r = Ret VNone /\
  files (ext (snd r)) = files (ext st) /\
  dirs (ext (snd r)) = dirs (ext st) /\
  spy (ext (snd r)) = spy (ext st) /\
  (fst (use_mlflow st) = Ret true ->
   log (ext (snd r)) =
     mkLog WARNING ("Pyarrow is not installed. " ++ str filename
                    ++ " artifact won't be stored on HDFS") None
     :: log (ext (snd (use_mlflow st)))) /\
  (fst (use_mlflow st) = Ret false -> snd r = snd (use_mlflow st)).
Proof.
  intros P r.
  destruct (use_mlflow_shape st) as [b [l E]].
  assert (R : r =
              (Ret VNone,
               if b
               then with_ext (snd (use_mlflow st))
                      (with_log (ext (snd (use_mlflow st)))
                         (mkLog WARNING
                            ("Pyarrow is not installed. " ++ str filename
                             ++ " artifact won't be stored on HDFS") None
                          :: log (ext (snd (use_mlflow st)))))
               else snd (use_mlflow st))).
  { subst r.
    unfold save_text_to_mlflow, safe_mlflow, save_text_to_mlflow_body,
      try_except, bind.
    rewrite E. destruct b; cbn [negb snd]; [|reflexivity].
    unfold _is_pyarrow_installed, try_except, logger_warning, emit, bind,
      ret, raise, get_ext. cbn [ext import_pyarrow with_log]. rewrite P.
    reflexivity. }
  rewrite R, E. cbn [fst snd].
  destruct b; cbn; repeat split; try reflexivity; discriminate.
Qed.

Lemma no_pyarrow_is_noop_witness :
  let st := load_module no_pyarrow in
  import_pyarrow (ext st) = NotFound /\
  fst (use_mlflow st) = Ret true /\
  fst (save_text_to_mlflow (VStr "hello") (VStr "out.txt") st) = Ret VNone /\
  log (ext (snd (save_text_to_mlflow (VStr "hello") (VStr "out.txt") st))) =
    [mkLog WARNING
       "Pyarrow is not installed. out.txt artifact won't be stored on HDFS"
       None].
Proof.
  split; [reflexivity|]. split; [reflexivity|].
  destruct (no_pyarrow_is_noop (VStr "hello") (VStr "out.txt")
              (load_module no_pyarrow) eq_refl) as [R [_ [_ [_ [W _]]]]].
  split; [exact R|]. exact (W eq_refl).
Defined.

(** * Further properties of the module *)

(** ** Detection, path by path *)

(** Without the override, detection on a host where mlflow cannot be
    imported returns false and logs the import error at exception level;
    [use_mlflow] caches the false and raises nothing. *)
Theorem gate_without_mlflow (st : state) :
  _use_mlflow st = None ->
  override (ext st) <> "False" ->
  import_mlflow (ext st) <> Imported ->
  use_mlflow st =
    (Ret false,
     mkState (Some false) (mlflow_bound st)
       (with_log (ext st)
          (mkLog ERROR "mlflow is not installed"
                 (Some (import_error (import_mlflow (ext st))))
           :: log (ext st)))).
Proof.
  intros F O I. apply String.eqb_neq in O. unfold override in O.
  unfold use_mlflow, _detect_mlflow, getenv, try_except, import_mlflow_now,
    logger_exception, emit, bind, ret, raise, get_ext.
  rewrite F, O.
  destruct (import_mlflow (ext st)); [now elim I| |]; reflexivity.
Qed.

Lemma gate_without_mlflow_witness :
  use_mlflow (load_module no_mlflow) =
    (Ret false,
     mkState (Some false) false
       (with_log no_mlflow
          [mkLog ERROR "mlflow is not installed" (Some ModuleNotFoundError)])).
Proof.
  apply (gate_without_mlflow (load_module no_mlflow));
    [reflexivity | discriminate | discriminate].
Defined.

(** Without the override and with mlflow importable, detection turns on
    whether a tracking endpoint is configured: with one, the gate opens and
    nothing is logged; without one, the gate stays shut and one warning
    says so. *)
Theorem gate_follows_endpoint (st : state) :
  _use_mlflow st = None ->
  override (ext st) <> "False" ->
  import_mlflow (ext st) = Imported ->
  use_mlflow st =
    match tracking_uri (ext st) with
    | Some _ => (Ret true, with_flag st true)
    | None =>
        (Ret false,
         mkState (Some false) (mlflow_bound st)
           (with_log (ext st)
              (mkLog WARNING
                     "mlflow tracking uri is not set. will not use mlflow"
                     None
               :: log (ext st))))
    end.
Proof.
  intros F O I. apply String.eqb_neq in O. unfold override in O.
  unfold use_mlflow, _detect_mlflow, getenv, try_except, import_mlflow_now,
    is_tracking_uri_set, logger_warning, emit, bind, ret, raise, get_ext.
  rewrite F, O, I. cbn [negb].
  destruct (tracking_uri (ext st)); [|reflexivity].
  reflexivity.
Qed.

Lemma gate_follows_endpoint_witness :
  use_mlflow (load_module no_endpoint) =
    (Ret false,
     mkState (Some false) true
       (with_log no_endpoint
          [mkLog WARNING "mlflow tracking uri is not set. will not use mlflow"
                 None])).
Proof.
  apply (gate_follows_endpoint (load_module no_endpoint));
    [reflexivity | discriminate | reflexivity].
Defined.

(** ** What no function of the module touches *)

Lemma flag_step_refl (st : state) : flag_step st st.
Proof. now left. Qed.

Lemma evolves_refl (st : state) : evolves st st.
Proof. unfold evolves. repeat split; auto. apply flag_step_refl. Qed.

Lemma evolves_trans (a b c : state) : evolves a b -> evolves b c -> evolves a c.
Proof.
  intros [B1 [I1 [F1 [A1 G1]]]] [B2 [I2 [F2 [A2 G2]]]].
  unfold evolves. repeat split; try congruence; auto.
  destruct G1 as [E1|[N1 [x [S1 T1]]]], G2 as [E2|[N2 [y [S2 T2]]]].
  - left. congruence.
  - right. split; [congruence|]. exists y. split; [exact S2|].
    intro Y. rewrite <- I1. now apply T2.
  - right. split; [exact N1|]. exists x. split; [congruence|exact T1].
  - congruence.
Qed.

(** A step that only rewrites the log, the call list or the files. *)
Lemma evolves_with_ext (st : state) (w : world) :
  import_mlflow w = import_mlflow (ext st) ->
  faults w = faults (ext st) ->
  active w = active (ext st) ->
  evolves st (with_ext st w).
Proof.
  intros I F A. unfold evolves. cbn. repeat split; auto.
  - intros r. congruence.
  - now left.
Qed.

Lemma respects_ret {A} (a : A) : respects (ret a).
Proof. intro st. apply evolves_refl. Qed.

Lemma respects_raise {A} (e : exn_class) : respects (@raise A e).
Proof. intro st. apply evolves_refl. Qed.

Lemma respects_get_ext : respects get_ext.
Proof. intro st. apply evolves_refl. Qed.

Lemma respects_bind {A B} (m : M A) (k : A -> M B) :
  respects m -> (forall a, respects (k a)) -> respects (bind m k).
Proof.
  intros Hm Hk st. unfold bind. specialize (Hm st).
  destruct (m st) as [[a|e] st']; cbn [snd] in *; [|exact Hm].
  eapply evolves_trans; [exact Hm|apply Hk].
Qed.

Lemma respects_try_except {A} (m : M A) ds h :
  respects m -> respects ds -> (forall e, respects (h e)) ->
  respects (try_except m ds h).
Proof.
  intros Hm Hd Hh st. unfold try_except. specialize (Hm st).
  destruct (m st) as [[a|e] st']; cbn [snd] in *; [exact Hm|].
  specialize (Hd st'). destruct (ds st') as [[l|e'] st'']; cbn [snd] in *.
  - destruct (matches e l); cbn [snd].
    + eapply evolves_trans; [exact Hm|].
      eapply evolves_trans; [exact Hd|apply Hh].
    + eapply evolves_trans; eassumption.
  - eapply evolves_trans; eassumption.
Qed.

Lemma respects_finally {A} (m : M A) (h : state -> state) :
  respects m -> (forall st, evolves st (h st)) -> respects (finally m h).
Proof.
  intros Hm Hh st. unfold finally. specialize (Hm st).
  destruct (m st) as [r st']; cbn [snd] in *.
  eapply evolves_trans; [exact Hm|apply Hh].
Qed.

Lemma respects_emit (r : log_record) : respects (emit r).
Proof. intro st. unfold emit. cbn [snd]. now apply evolves_with_ext. Qed.

Lemma respects_global_mlflow : respects global_mlflow.
Proof.
  intro st. unfold global_mlflow.
  destruct (mlflow_bound st); apply evolves_refl.
Qed.

Lemma respects_invoke (c : mlflow.call) : respects (invoke c).
Proof.
  intro st. unfold invoke, global_mlflow, bind, ret, raise, get_ext, put_ext.
  destruct (mlflow_bound st); [|apply evolves_refl].
  destruct (faults (ext st) c); cbn [snd]; now apply evolves_with_ext.
Qed.

Lemma respects_mlflow_start_run : respects mlflow_start_run.
Proof.
  intro st.
  unfold mlflow_start_run, invoke, global_mlflow, bind, ret, raise, get_ext,
    put_ext.
  destruct (mlflow_bound st); [|apply evolves_refl].
  destruct (faults (ext st) mlflow.start_run); cbn [snd];
    [now apply evolves_with_ext|].
  cbn [ext with_ext with_spy active].
  destruct (active (ext st)) eqn:A; cbn [snd].
  - now apply evolves_with_ext.
  - unfold evolves. cbn. repeat split; auto.
    + intros r. congruence.
    + now left.
Qed.

Lemma respects_use_mlflow : respects use_mlflow.
Proof.
  intro st. unfold use_mlflow.
  destruct (_use_mlflow st) as [b|] eqn:F; [apply evolves_refl|].
  destruct (detect_shape st) as [l [E _]]. rewrite E. cbn [snd].
  unfold evolves. cbn. repeat split; auto.
  right. split; [exact F|]. eexists. split; [reflexivity|].
  destruct (String.eqb _ _); [discriminate|].
  unfold auto_detection. destruct (import_mlflow (ext st)); try discriminate.
  reflexivity.
Qed.

Lemma respects_mkdtemp : respects mkdtemp.
Proof.
  intro st. unfold mkdtemp, bind, ret, raise, get_ext, put_ext.
  destruct (fs_faults (ext st) op_mkdtemp); [apply evolves_refl|].
  destruct (mem _ _); cbn [snd]; [apply evolves_refl|].
  now apply evolves_with_ext.
Qed.

Lemma respects_open_write (path : string) (content : value) :
  respects (open_write path content).
Proof.
  intro st. unfold open_write, bind, ret, raise, get_ext, put_ext.
  destruct (fs_faults (ext st) (op_open path)); [apply evolves_refl|].
  destruct content; cbn [snd]; try now apply evolves_with_ext.
  destruct (fs_faults (ext st) (op_write path)); cbn [snd].
  - now apply evolves_with_ext.
  - eapply evolves_trans; apply evolves_with_ext; reflexivity.
Qed.

Lemma evolves_rmtree (d : string) (st : state) : evolves st (rmtree d st).
Proof. unfold rmtree. now apply evolves_with_ext. Qed.

Ltac respects_step :=
  first
    [ apply respects_ret | apply respects_raise | apply respects_get_ext
    | apply respects_emit | apply respects_global_mlflow
    | apply respects_use_mlflow | apply respects_invoke
    | apply respects_mlflow_start_run | apply respects_mkdtemp
    | apply respects_open_write
    | apply respects_bind; [|intro]
    | apply respects_try_except; [| |intro]
    | apply respects_finally; [|apply evolves_rmtree]
    | match goal with
      | |- respects (match ?x with _ => _ end) => destruct x
      end ].

Ltac respects_all := repeat respects_step.

Lemma respects_decorate d f : respects f -> respects (decorate d f).
Proof.
  intro Hf.
  destruct d; unfold decorate, safe_mlflow, optional_mlflow, except_tuple,
    handler, logger_exception; respects_all; assumption.
Qed.

Lemma respects_run (c : public.call) : respects (run c).
Proof.
  destruct c; cbn [run];
    try (apply (respects_decorate Optional); unfold forward; respects_all).
  - respects_all.
  - apply (respects_decorate Safe).
    unfold active_run_id_body, mlflow_active_run, logger_warning.
    respects_all.
  - unfold get_tracking_uri, mlflow_get_tracking_uri. respects_all.
  - intro st. apply evolves_refl.
  - apply (respects_decorate Safe).
    unfold save_text_to_mlflow_body, _is_pyarrow_installed,
      with_TemporaryDirectory, write_and_upload, os_path_join,
      logger_warning, logger_info.
    respects_all.
Qed.

Lemma steps_calls_evolve (calls : list public.call) (st : state) :
  evolves st (steps (map Call calls) st).
Proof.
  revert st. induction calls as [|c calls IH]; intro st.
  - apply evolves_refl.
  - cbn [map steps fold_left step].
    eapply evolves_trans; [apply respects_run|apply IH].
Qed.

(** The module never ends or replaces a run: a run that is active stays
    the active run through any sequence of calls to the public
    functions, whatever they return or raise. *)
Theorem active_run_survives (calls : list public.call) (st : state)
    (run_id : string) :
  active (ext st) = Some run_id ->
  active (ext (steps (map Call calls) st)) = Some run_id.
Proof.
  intro A. destruct (steps_calls_evolve calls st) as [_ [_ [_ [K _]]]].
  now apply K.
Qed.

Lemma active_run_survives_witness :
  active (ext (steps (map Call [public.active_run_id;
                                public.set_tag (VStr "phase") (VStr "train");
                                public.save_text_to_mlflow (VStr "hello")
                                                           (VStr "out.txt")])
                     (load_module running)))
  = Some "run-0".
Proof.
  apply (active_run_survives _ (load_module running) "run-0"). reflexivity.
Defined.

(** In a process where only the module's own functions run after it was
    loaded, a gate that says tracking is on implies that the import at the
    top of the module had succeeded: the names [mlflow] and [exceptions]
    are bound whenever a function goes on to use them. *)
Theorem tracking_on_means_bound (w : world) (calls : list public.call) :
  let st := steps (map Call calls) (load_module w) in
  fst (use_mlflow st) = Ret true ->
  mlflow_bound st = true.
Proof.
  intros st G.
  destruct (steps_calls_evolve calls (load_module w))
    as [B [I [_ [_ S]]]].
  fold st in B, I, S. cbn [load_module mlflow_bound ext _use_mlflow] in B, I, S.
  assert (Imp : import_mlflow w = Imported).
  { unfold use_mlflow in G. destruct (_use_mlflow st) as [b|] eqn:F.
    - cbn [fst] in G. inversion G; subst b.
      destruct S as [S|[_ [b [S T]]]]; [cbn in S; congruence|].
      apply T. congruence.
    - destruct (detect_shape st) as [l [E _]]. rewrite E in G. cbn [fst] in G.
      rewrite <- I.
      destruct (String.eqb _ _); [discriminate|].
      unfold auto_detection in G.
      destruct (import_mlflow (ext st)); try discriminate. reflexivity. }
  rewrite B, Imp. reflexivity.
Qed.

Lemma tracking_on_means_bound_witness :
  mlflow_bound (steps (map Call [public.log_param (VStr "lr") (VInt 3)])
                      (load_module quiet)) = true.
Proof.
  apply (tracking_on_means_bound quiet
           [public.log_param (VStr "lr") (VInt 3)]).
  reflexivity.
Defined.

(** ** Calls that reach the client *)

Lemma gate_on (st : state) :
  fst (use_mlflow st) = Ret true ->
  exists l,
    use_mlflow st =
    (Ret true,
     mkState (Some true) (mlflow_bound st)
             (with_log (ext st) (l ++ log (ext st)))).
Proof.
  intro G. destruct (use_mlflow_shape st) as [b [l E]]. rewrite E in G.
  cbn [fst] in G. inversion G; subst b. now exists l.
Qed.

Lemma gate_off (st : state) :
  fst (use_mlflow st) = Ret false ->
  exists st0, use_mlflow st = (Ret false, st0).
Proof.
  intro G. destruct (use_mlflow st) as [r st0]. cbn [fst] in G. subst r.
  now exists st0.
Qed.

Lemma invoke_eq (c : mlflow.call) (st : state) :
  invoke c st =
  if mlflow_bound st
  then (match faults (ext st) c with
        | Some e => Raise e
        | None => Ret tt
        end, noted c st)
  else (Raise NameError, st).
Proof.
  unfold invoke, global_mlflow, bind, ret, raise, get_ext, put_ext, noted.
  destruct (mlflow_bound st); [|reflexivity].
  now destruct (faults (ext st) c).
Qed.

(** With tracking on and the client answering, each forwarding function
    hands the client exactly one call, the one of its own name with the
    arguments it was given, unchanged and in order, and returns [None];
    beyond the gate's own work nothing else happens. *)
Theorem forwarded_verbatim (c : public.call) (sent : mlflow.call) (st : state) :
  decorated c = Some (Optional, forward sent) ->
  fst (use_mlflow st) = Ret true ->
  mlflow_bound st = true ->
  faults (ext st) sent = None ->
  run c st = (Ret VNone, noted sent (snd (use_mlflow st))) /\
  spy (ext (snd (run c st))) = sent :: spy (ext st).
Proof.
  intros D G B F. destruct (gate_on st G) as [l E].
  assert (R : run c st = (Ret VNone, noted sent (snd (use_mlflow st)))).
  { rewrite (run_decorated c _ _ D).
    cbn [decorate]. unfold optional_mlflow, bind at 1.
    rewrite E. cbn [snd].
    unfold try_except, forward, bind. rewrite invoke_eq.
    cbn [mlflow_bound ext with_log faults]. rewrite B, F.
    reflexivity. }
  split; [exact R|]. rewrite R, E. reflexivity.
Qed.

Lemma forwarded_verbatim_witness :
  let st := load_module quiet in
  log_metric (VStr "loss") (VInt 3) (VInt 10) st =
    (Ret VNone,
     noted (mlflow.log_metric (VStr "loss") (VInt 3) (VInt 10))
           (snd (use_mlflow st))).
Proof.
  apply (forwarded_verbatim
           (public.log_metric (VStr "loss") (VInt 3) (VInt 10))
           (mlflow.log_metric (VStr "loss") (VInt 3) (VInt 10))
           (load_module quiet)); reflexivity.
Defined.

(** [get_tracking_uri()] returns the empty string, without asking the
    client, when tracking is off; when tracking is on and the client
    answers, it asks the client once and returns the endpoint the client
    reports. *)
Theorem get_tracking_uri_returns (st : state) :
  (fst (use_mlflow st) = Ret false ->
   get_tracking_uri st = (Ret (VStr ""), snd (use_mlflow st))) /\
  (fst (use_mlflow st) = Ret true ->
   mlflow_bound st = true ->
   faults (ext st) mlflow.get_tracking_uri = None ->
   get_tracking_uri st =
     (Ret (VStr (match tracking_uri (ext st) with
                 | Some uri => uri
                 | None => local_store_uri (ext st)
                 end)),
      noted mlflow.get_tracking_uri (snd (use_mlflow st)))).
Proof.
  split.
  - intro G. destruct (gate_off st G) as [st0 E].
    unfold get_tracking_uri, bind. now rewrite E.
  - intros G B F. destruct (gate_on st G) as [l E].
    unfold get_tracking_uri. unfold bind at 1. rewrite E. cbn [snd].
    unfold mlflow_get_tracking_uri, bind. rewrite invoke_eq.
    cbn [mlflow_bound ext with_log faults]. rewrite B, F.
    reflexivity.
Qed.

Lemma get_tracking_uri_returns_witness :
  fst (get_tracking_uri (load_module quiet)) = Ret (VStr "http://tracking:5000")
  /\ fst (get_tracking_uri (load_module overridden)) = Ret (VStr "").
Proof.
  split.
  - rewrite (proj2 (get_tracking_uri_returns (load_module quiet))
               eq_refl eq_refl eq_refl). reflexivity.
  - rewrite (proj1 (get_tracking_uri_returns (load_module overridden))
               eq_refl). reflexivity.
Defined.

(** With tracking on but the module's import of mlflow failed when the
    module was loaded, every function that goes to the client raises
    [NameError] to its caller -- the decorators included, whose [except]
    clause itself reads the unbound name [exceptions]. *)
Theorem unbound_names_raise (c : public.call) (st : state) :
  fst (use_mlflow st) = Ret true ->
  mlflow_bound st = false ->
  match c with
  | public.use_mlflow | public.format_key _
  | public.save_text_to_mlflow _ _ => True
  | _ => fst (run c st) = Raise NameError
  end.
Proof.
  intros G B. destruct (gate_on st G) as [l E].
  destruct c; try exact I; cbn [run];
    try (unfold set_tag, set_tags, log_param, log_params, log_metric,
           log_metrics, log_artifact, log_artifacts, optional_mlflow;
         unfold bind at 1; rewrite E;
         unfold try_except, forward, bind; rewrite invoke_eq;
         cbn [mlflow_bound]; rewrite B;
         unfold except_tuple, global_mlflow, bind;
         cbn [mlflow_bound]; rewrite ?B; reflexivity).
  - unfold active_run_id, safe_mlflow, try_except, active_run_id_body.
    unfold bind at 1. unfold bind at 1. rewrite E.
    unfold mlflow_active_run, bind. rewrite invoke_eq.
    cbn [mlflow_bound]. rewrite B.
    unfold except_tuple, global_mlflow, bind.
    cbn [mlflow_bound]. rewrite ?B. reflexivity.
  - unfold get_tracking_uri. unfold bind at 1. rewrite E.
    unfold mlflow_get_tracking_uri, bind. rewrite invoke_eq.
    cbn [mlflow_bound]. rewrite B. reflexivity.
Qed.

Lemma unbound_names_raise_witness :
  fst (set_tag (VStr "phase") (VStr "train")
         (with_ext (load_module no_mlflow) quiet)) = Raise NameError.
Proof.
  apply (unbound_names_raise
           (public.set_tag (VStr "phase") (VStr "train"))
           (with_ext (load_module no_mlflow) quiet));
    reflexivity.
Defined.

(** ** The text helper, path by path *)

Lemma os_path_join_str (a b : string) :
  os_path_join a (VStr b) = ret (joined a b).
Proof.
  unfold os_path_join, joined.
  destruct (String.prefix "/" b); [reflexivity|].
  now destruct (_ || _).
Qed.

Lemma set_file_twice (p c c' : string) (l : list (string * string)) :
  set_file p c (set_file p c' l) = set_file p c l.
Proof.
  unfold set_file. cbn [filter fst]. rewrite String.eqb_refl. cbn [negb].
  f_equal. induction l as [|[q d] l IH]; [reflexivity|].
  cbn [filter fst]. destruct (String.eqb q p) eqn:E; cbn [negb]; [exact IH|].
  cbn [filter fst]. rewrite E. cbn [negb]. now rewrite IH.
Qed.

Lemma write_and_upload_ok (content filename tempdir : string) (st : state) :
  let path := joined tempdir filename in
  mlflow_bound st = true ->
  fs_faults (ext st) (op_open path) = None ->
  fs_faults (ext st) (op_write path) = None ->
  faults (ext st) (mlflow.log_artifact (VStr path) VNone) = None ->
  write_and_upload (VStr content) (VStr filename) tempdir st =
    (Ret tt,
     noted (mlflow.log_artifact (VStr path) VNone) (written path content st)).
Proof.
  intros path B O W F. unfold write_and_upload.
  rewrite os_path_join_str. fold path. unfold bind at 1. unfold ret at 1.
  unfold bind, open_write, bind, ret, raise, get_ext, put_ext.
  rewrite O, W. cbn [ext with_ext with_fs dirs files].
  rewrite invoke_eq. cbn [mlflow_bound ext with_ext with_fs faults].
  rewrite B, F. rewrite set_file_twice. reflexivity.
Qed.

(** The block under [with], when nothing fails: the file at
    [os.path.join(tempdir, filename)] holds exactly [content], whatever it
    held before, and only then is the client called, once, with that path
    and no artifact path. *)
Theorem write_then_upload (content filename tempdir : string) (st : state) :
  let path := joined tempdir filename in
  mlflow_bound st = true ->
  fs_faults (ext st) (op_open path) = None ->
  fs_faults (ext st) (op_write path) = None ->
  faults (ext st) (mlflow.log_artifact (VStr path) VNone) = None ->
  write_and_upload (VStr content) (VStr filename) tempdir st =
    (Ret tt,
     noted (mlflow.log_artifact (VStr path) VNone) (written path content st))
  /\
  In (path, content)
     (files (ext (snd (write_and_upload (VStr content) (VStr filename)
                         tempdir st)))).
Proof.
  intros path B O W F.
  rewrite (write_and_upload_ok content filename tempdir st B O W F).
  split; [reflexivity|]. now left.
Qed.

Lemma write_then_upload_witness :
  let st := snd (mkdtemp (snd (use_mlflow (load_module quiet)))) in
  files (ext (snd (write_and_upload (VStr "hello") (VStr "out.txt")
                     "/tmp/tmp8x3k2q" st)))
  = [("/tmp/tmp8x3k2q/out.txt", "hello")].
Proof.
  cbv zeta.
  rewrite (proj1 (write_then_upload "hello" "out.txt" "/tmp/tmp8x3k2q"
                    (snd (mkdtemp (snd (use_mlflow (load_module quiet)))))
                    eq_refl eq_refl eq_refl eq_refl)).
  reflexivity.
Defined.

Lemma with_TemporaryDirectory_eq {A} (body : string -> M A) (st : state) :
  fs_faults (ext st) op_mkdtemp = None ->
  mem (tmp_name (ext st)) (dirs (ext st)) = false ->
  with_TemporaryDirectory body st =
    (fst (body (tmp_name (ext st))
            (with_ext st
               (with_fs (ext st) (tmp_name (ext st) :: dirs (ext st))
                        (files (ext st))))),
     rmtree (tmp_name (ext st))
       (snd (body (tmp_name (ext st))
               (with_ext st
                  (with_fs (ext st) (tmp_name (ext st) :: dirs (ext st))
                           (files (ext st))))))).
Proof.
  intros F Mm.
  unfold with_TemporaryDirectory, finally, mkdtemp, bind, ret, raise,
    get_ext, put_ext.
  rewrite F, Mm. cbn [snd fst].
  now destruct (body _ _).
Qed.

(** The state in which [save_text_to_mlflow] enters its [with]
    statement. *)
Lemma save_text_body_eq (content filename : value) (st : state) :
  fst (use_mlflow st) = Ret true ->
  import_pyarrow (ext st) = Imported ->
  exists l,
    save_text_to_mlflow_body content filename st =
    (with_TemporaryDirectory (write_and_upload content filename) ;;
     ret VNone)
      (mkState (Some true) (mlflow_bound st) (with_log (ext st) l)).
Proof.
  intros G P. destruct (gate_on st G) as [l E].
  unfold save_text_to_mlflow_body. unfold bind at 1. rewrite E. cbn [negb].
  unfold _is_pyarrow_installed, try_except, logger_info, emit.
  unfold bind at 1. unfold bind at 1. unfold get_ext at 1.
  cbn [ext import_pyarrow with_log]. rewrite P.
  unfold ret at 1. cbn [negb].
  unfold bind at 1.
  exists (mkLog INFO ("save file " ++ str filename ++ " to mlflow") None
            :: l ++ log (ext st)).
  reflexivity.
Qed.

Lemma safe_mlflow_ret (f : M value) (st st' : state) (v : value) :
  f st = (Ret v, st') -> safe_mlflow f st = (Ret v, st').
Proof. intro E. unfold safe_mlflow, try_except. now rewrite E. Qed.

(** With tracking off [save_text_to_mlflow] returns [None] at once: it
    does not look for pyarrow (a pyarrow that fails to load goes
    unnoticed), writes nothing and calls nothing. *)
Theorem save_text_disabled (content filename : value) (st : state) :
  fst (use_mlflow st) = Ret false ->
  save_text_to_mlflow content filename st = (Ret VNone, snd (use_mlflow st)).
Proof.
  intro G. destruct (gate_off st G) as [st0 E].
  apply safe_mlflow_ret. unfold save_text_to_mlflow_body, bind.
  now rewrite E.
Qed.

Lemma save_text_disabled_witness :
  let st := load_module (with_pyarrow overridden Broken) in
  save_text_to_mlflow (VStr "hello") (VStr "out.txt") st =
    (Ret VNone, with_flag st false).
Proof.
  apply (save_text_disabled (VStr "hello") (VStr "out.txt")
           (load_module (with_pyarrow overridden Broken))).
  reflexivity.
Defined.

(** [_is_pyarrow_installed] catches [ModuleNotFoundError] only: with
    tracking on, a pyarrow that is installed but fails to load makes
    [save_text_to_mlflow] raise [ImportError] to its caller, before any
    file is written or the client called. *)
Theorem broken_pyarrow_raises (content filename : value) (st : state) :
  fst (use_mlflow st) = Ret true ->
  mlflow_bound st = true ->
  import_pyarrow (ext st) = Broken ->
  save_text_to_mlflow content filename st =
    (Raise ImportError, snd (use_mlflow st)).
Proof.
  intros G B P. destruct (gate_on st G) as [l E].
  unfold save_text_to_mlflow, safe_mlflow.
  rewrite (try_except_bound _ st (snd (use_mlflow st)) ImportError).
  - reflexivity.
  - unfold save_text_to_mlflow_body. unfold bind at 1. rewrite E.
    cbn [negb snd].
    unfold _is_pyarrow_installed, try_except, bind, ret, raise, get_ext.
    cbn [ext import_pyarrow with_log]. rewrite P. reflexivity.
  - rewrite E. exact B.
Qed.

Lemma broken_pyarrow_raises_witness :
  fst (save_text_to_mlflow (VStr "hello") (VStr "out.txt")
         (load_module broken_pyarrow)) = Raise ImportError.
Proof.
  rewrite (broken_pyarrow_raises (VStr "hello") (VStr "out.txt")
             (load_module broken_pyarrow) eq_refl eq_refl eq_refl).
  reflexivity.
Defined.

(** The files the block under [with] leaves, once [open] and [write] went
    through: the client's answer does not matter. *)
Lemma write_and_upload_files (content filename tempdir : string)
    (st : state) :
  let path := joined tempdir filename in
  fs_faults (ext st) (op_open path) = None ->
  fs_faults (ext st) (op_write path) = None ->
  files (ext (snd (write_and_upload (VStr content) (VStr filename) tempdir
                     st)))
  = set_file path content (files (ext st)).
Proof.
  intros path O W. unfold write_and_upload.
  rewrite os_path_join_str. fold path. unfold bind at 1. unfold ret at 1.
  unfold bind, open_write, bind, ret, raise, get_ext, put_ext.
  rewrite O, W. cbn [ext with_ext with_fs dirs files].
  rewrite invoke_eq. cbn [mlflow_bound ext with_ext with_fs faults].
  rewrite set_file_twice.
  destruct (mlflow_bound st); [|reflexivity].
  now destruct (faults (ext st) _).
Qed.

(** An absolute [filename] makes [os.path.join] drop the temporary
    directory: the text is written at [filename] itself, and when that
    lies outside the temporary directory the cleanup leaves it there --
    the file outlives the call, whether or not the upload succeeds. *)
Theorem absolute_filename_survives (content filename : string) (st : state) :
  fst (use_mlflow st) = Ret true ->
  import_pyarrow (ext st) = Imported ->
  fs_faults (ext st) op_mkdtemp = None ->
  mem (tmp_name (ext st)) (dirs (ext st)) = false ->
  String.prefix "/" filename = true ->
  under (tmp_name (ext st)) filename = false ->
  fs_faults (ext st) (op_open filename) = None ->
  fs_faults (ext st) (op_write filename) = None ->
  In (filename, content)
     (files (ext (snd (save_text_to_mlflow (VStr content) (VStr filename)
                         st)))).
Proof.
  intros G P F Mm A U O W. unfold save_text_to_mlflow.
  destruct (safe_mlflow_fs
              (save_text_to_mlflow_body (VStr content) (VStr filename)) st)
    as [_ [-> _]].
  destruct (save_text_upload_stage (VStr content) (VStr filename) st G P)
    as [l ->].
  rewrite with_TemporaryDirectory_leaves.
  cbn [ext with_log fs_faults tmp_name dirs files]. rewrite F, Mm.
  unfold rmtree. cbn [ext with_ext with_fs files].
  apply filter_In. cbn [fst]. rewrite U. split; [|reflexivity].
  assert (J : joined (tmp_name (ext st)) filename = filename).
  { unfold joined. now rewrite A. }
  rewrite write_and_upload_files; rewrite J; cbn; auto.
Qed.

Lemma absolute_filename_survives_witness :
  In ("/job/notes.txt", "hello")
     (files (ext (snd (save_text_to_mlflow (VStr "hello")
                         (VStr "/job/notes.txt")
                         (load_module unreachable))))).
Proof.
  apply (absolute_filename_survives "hello" "/job/notes.txt"
           (load_module unreachable)); reflexivity.
Defined.

(** When nothing fails, [save_text_to_mlflow] returns [None] and the
    client has received exactly one call: [log_artifact] with the path of
    [filename] joined to the temporary directory. *)
Theorem save_text_uploads (content filename : string) (st : state) :
  let path := joined (tmp_name (ext st)) filename in
  fst (use_mlflow st) = Ret true ->
  import_pyarrow (ext st) = Imported ->
  mlflow_bound st = true ->
  fs_faults (ext st) op_mkdtemp = None ->
  mem (tmp_name (ext st)) (dirs (ext st)) = false ->
  fs_faults (ext st) (op_open path) = None ->
  fs_faults (ext st) (op_write path) = None ->
  faults (ext st) (mlflow.log_artifact (VStr path) VNone) = None ->
  fst (save_text_to_mlflow (VStr content) (VStr filename) st) = Ret VNone /\
  spy (ext (snd (save_text_to_mlflow (VStr content) (VStr filename) st)))
  = mlflow.log_artifact (VStr path) VNone :: spy (ext st).
Proof.
  intros path G P B F Mm O W C.
  destruct (save_text_body_eq (VStr content) (VStr filename) st G P)
    as [l E].
  assert (R : exists st',
             save_text_to_mlflow (VStr content) (VStr filename) st =
               (Ret VNone, st') /\
             spy (ext st') =
               mlflow.log_artifact (VStr path) VNone :: spy (ext st)).
  { eexists. split.
    - apply safe_mlflow_ret. rewrite E. unfold bind.
      rewrite with_TemporaryDirectory_eq by (cbn; assumption).
      cbn [ext with_log tmp_name dirs files].
      rewrite (write_and_upload_ok content filename (tmp_name (ext st)))
        by (cbn; assumption).
      cbn [fst snd]. reflexivity.
    - reflexivity. }
  destruct R as [st' [-> S]]. split; [reflexivity|exact S].
Qed.

Lemma save_text_uploads_witness :
  spy (ext (snd (save_text_to_mlflow (VStr "hello") (VStr "out.txt")
                   (load_module quiet))))
  = [mlflow.log_artifact (VStr "/tmp/tmp8x3k2q/out.txt") VNone].
Proof.
  apply (save_text_uploads "hello" "out.txt" (load_module quiet));
    reflexivity.
Defined.




(** ** Runs across calls *)

Lemma active_run_id_running (st : state) (run_id : string) :
  fst (use_mlflow st) = Ret true ->
  mlflow_bound st = true ->
  faults (ext st) mlflow.active_run = None ->
  active (ext st) = Some run_id ->
  active_run_id st =
    (Ret (VStr run_id), noted mlflow.active_run (snd (use_mlflow st))).
Proof.
  intros G B F A. destruct (gate_on st G) as [l E].
  apply safe_mlflow_ret. unfold active_run_id_body.
  unfold bind at 1. rewrite E. cbn [snd].
  unfold mlflow_active_run. unfold bind at 1. unfold bind at 1.
  rewrite invoke_eq. cbn [mlflow_bound ext with_log faults]. rewrite B, F.
  unfold bind, get_ext, ret, noted. cbn [ext with_ext with_spy with_log active].
  rewrite A. reflexivity.
Qed.

Lemma active_run_id_starts (st : state) :
  fst (use_mlflow st) = Ret true ->
  mlflow_bound st = true ->
  faults (ext st) mlflow.active_run = None ->
  active (ext st) = None ->
  faults (ext st) mlflow.start_run = None ->
  exists l,
    active_run_id st =
    (Ret (VStr (next_run_id (ext st))),
     mkState (Some true) true
       (with_active
          (with_spy (with_log (ext st) l)
             (mlflow.start_run :: mlflow.active_run :: spy (ext st)))
          (Some (next_run_id (ext st))))).
Proof.
  intros G B F A F'. destruct (gate_on st G) as [l E].
  exists (mkLog WARNING "there is no active mlflow run. starting a new run .."
                None :: l ++ log (ext st)).
  apply safe_mlflow_ret. unfold active_run_id_body.
  unfold bind at 1. rewrite E. cbn [snd].
  unfold mlflow_active_run. unfold bind at 1. unfold bind at 1.
  unfold bind at 1.
  rewrite invoke_eq. cbn [mlflow_bound ext with_log faults]. rewrite B, F.
  unfold get_ext at 1. unfold noted at 1.
  cbn [ext with_ext with_spy with_log active]. rewrite A.
  unfold ret at 1.
  unfold logger_warning, emit, mlflow_start_run.
  unfold bind at 1. unfold bind at 1. unfold bind at 1.
  rewrite invoke_eq. unfold noted.
  cbn [mlflow_bound ext with_ext with_spy with_log faults]. rewrite F'.
  unfold bind, get_ext, put_ext, ret, raise.
  cbn [ext with_ext with_spy with_log active spy next_run_id]. rewrite A.
  reflexivity.
Qed.

(** A run that [active_run_id()] had to start is the one later calls
    report: called again, with the client still answering, it returns the
    same identifier and only asks the client for the active run -- no
    second run is started. *)
Theorem started_run_is_reused (st : state) :
  fst (use_mlflow st) = Ret true ->
  mlflow_bound st = true ->
  faults (ext st) mlflow.active_run = None ->
  active (ext st) = None ->
  faults (ext st) mlflow.start_run = None ->
  let first := active_run_id st in
  fst first = Ret (VStr (next_run_id (ext st))) /\
  active_run_id (snd first) =
    (fst first, noted mlflow.active_run (snd first)).
Proof.
  intros G B F A F'. cbv zeta.
  destruct (active_run_id_starts st G B F A F') as [l E]. rewrite E.
  cbn [fst snd]. split; [reflexivity|].
  match goal with
  | |- active_run_id ?s = _ =>
      rewrite (active_run_id_running s (next_run_id (ext st)))
  end; try reflexivity.
  cbn [ext with_active with_spy with_log faults]. exact F.
Qed.

Lemma started_run_is_reused_witness :
  let first := active_run_id (load_module quiet) in
  fst (active_run_id (snd first)) = Ret (VStr "run-1") /\
  spy (ext (snd (active_run_id (snd first)))) =
    [mlflow.active_run; mlflow.start_run; mlflow.active_run].
Proof.
  cbv zeta.
  destruct (started_run_is_reused (load_module quiet)
              eq_refl eq_refl eq_refl eq_refl eq_refl) as [R ->].
  rewrite R. split; reflexivity.
Defined.

(** ** The sanitizer's output *)

Lemma sanitize_char_clean (c : ascii) :
  sanitize_char c <> ":"%char /\ sanitize_char c <> "/"%char.
Proof.
  unfold sanitize_char.
  destruct (Ascii.eqb c ":") eqn:E1; [split; discriminate|].
  destruct (Ascii.eqb c "/") eqn:E2; [split; discriminate|].
  cbn [orb]. split; now apply Ascii.eqb_neq.
Qed.

Lemma sanitize_char_fixed (c : ascii) :
  c <> ":"%char -> c <> "/"%char -> sanitize_char c = c.
Proof.
  intros N1 N2. unfold sanitize_char.
  apply Ascii.eqb_neq in N1, N2. now rewrite N1, N2.
Qed.

Lemma sanitize_idempotent (s : string) : sanitize (sanitize s) = sanitize s.
Proof.
  induction s as [|c s IH]; [reflexivity|]. cbn [sanitize]. rewrite IH.
  destruct (sanitize_char_clean c) as [N1 N2].
  now rewrite (sanitize_char_fixed _ N1 N2).
Qed.

(** A key that [format_key] returns holds no [:] and no [/], so it is a
    key the function leaves as it is: sanitizing twice is sanitizing
    once. *)
Theorem format_key_idempotent (key out : string) :
  format_key (VStr key) = Ret (VStr out) ->
  (forall i c, String.get i out = Some c -> c <> ":"%char /\ c <> "/"%char) /\
  format_key (VStr out) = Ret (VStr out).
Proof.
  intro E.
  assert (O : out = sanitize key).
  { destruct key as [|c s]; unfold format_key in E; cbn [truth] in E.
    - cbn in E. now inversion E.
    - cbn [String.eqb negb] in E. rewrite replace_twice in E.
      now inversion E. }
  subst out. split.
  - intros i c G. rewrite sanitize_get in G.
    destruct (String.get i key) as [d|]; [|discriminate].
    cbn in G. inversion G. apply sanitize_char_clean.
  - destruct (sanitize key) as [|c s] eqn:S; [reflexivity|].
    unfold format_key. cbn [truth String.eqb negb].
    rewrite replace_twice, <- S. now rewrite sanitize_idempotent.
Qed.

Lemma format_key_idempotent_witness :
  format_key (VStr "train_loss_epoch") = Ret (VStr "train_loss_epoch").
Proof.
  apply (format_key_idempotent "train/loss:epoch" "train_loss_epoch").
  reflexivity.
Defined.

(** A key without [:] and [/] comes back from [format_key] unchanged. *)
Theorem format_key_keeps_clean_keys (key : string) :
  (forall i c, String.get i key = Some c -> c <> ":"%char /\ c <> "/"%char) ->
  format_key (VStr key) = Ret (VStr key).
Proof.
  intro C.
  assert (S : sanitize key = key).
  { induction key as [|c s IH]; [reflexivity|]. cbn [sanitize].
    destruct (C 0 c eq_refl) as [N1 N2].
    rewrite (sanitize_char_fixed c N1 N2). f_equal. apply IH.
    intros i d G. exact (C (S i) d G). }
  destruct key as [|c s]; [reflexivity|].
  unfold format_key. cbn [truth String.eqb negb].
  now rewrite replace_twice, S.
Qed.

Lemma format_key_keeps_clean_keys_witness :
  format_key (VStr "lr") = Ret (VStr "lr").
Proof.
  apply (format_key_keeps_clean_keys "lr").
  intros [|[|i]] c G; simpl in G; try discriminate;
    inversion G; split; discriminate.
Defined.
